(** * Lifecycle orchestrator of the collector: a shallow embedding

    The development embeds [service/application.go] (the [Collector] with
    [New], [Shutdown], [execute], [createMemoryBallast],
    [setupConfigurationComponents], [reloadService] and
    [runAndWaitForShutdownEvent]) and [component/application_info.go].

    The Go code talks to collaborators that live outside the two files: the
    configuration provider, the service runtime, the telemetry subsystem, the
    flag packages and the operating system.  They are gathered in a record
    of operations over an abstract [World]; every call to one of them
    threads the world and leaves an [Event] carrying the answer in the
    trace of the run.  Channels are modelled with their buffer, capacity
    and closed flag, and a computation ends with a value, with a panic or
    blocked for ever.  The watch goroutines run while the primary flow is
    suspended in its [select]; finer interleavings of the goroutines are not
    modelled. *)

From Stdlib Require Import ZArith List String Bool Lia.
Import ListNotations.

Set Implicit Arguments.

Set Warnings "-register-all".

Local Open Scope string_scope.
Local Open Scope list_scope.
Local Open Scope Z_scope.

(** ** Package component *)

Module component.

(** [BinaryInfo] of application_info.go. *)
Record BinaryInfo : Type := mkBinaryInfo {
  Command : string;
  Description : string;
  Version : string
}.

Definition DefaultBinaryInfo : BinaryInfo :=
  {| Command := "otelcol";
     Description := "OpenTelemetry Collector";
     Version := "latest" |}.

(** [component.BuildInfo] is declared outside the two files; application.go
    reads its [Command] and [Version] only. *)
Record BuildInfo : Type := mkBuildInfo {
  BuildInfo_Command : string;
  BuildInfo_Version : string
}.

End component.

(** ** Go values shared by the whole package *)

(** [error] values.  [ErrSessionClosed] is the sentinel
    [configsource.ErrSessionClosed]; [ErrNew] is an error made by a
    collaborator; [Errorf msg e] is [fmt.Errorf(msg + ": %w", e)]; [Combined]
    is the aggregate built by [consumererror.Combine].  A Go [error] that may
    be nil is an [option error]. *)
Inductive error : Type :=
| ErrSessionClosed
| ErrNew (msg : string)
| Errorf (msg : string) (cause : error)
| Combined (errs : list error).

(** [errors.Is(err, configsource.ErrSessionClosed)]: the sentinel itself or
    any chain of [%w] wrappers around it; nil is not the sentinel. *)
Fixpoint wraps_ErrSessionClosed (e : error) : bool :=
  match e with
  | ErrSessionClosed => true
  | Errorf _ cause => wraps_ErrSessionClosed cause
  | ErrNew _ => false
  | Combined _ => false
  end.

Definition errors_Is_ErrSessionClosed (err : option error) : bool :=
  match err with
  | None => false
  | Some e => wraps_ErrSessionClosed e
  end.

(** Modelled from the spec: [consumererror.Combine] is not among the source
    files.  The spec describes its result as a single aggregate error
    standing for the collected failures, the empty aggregate being success
    (nil). *)
Definition Combine (errs : list error) : option error :=
  match errs with
  | [] => None
  | _ :: _ => Some (Combined errs)
  end.

(** What a failure-tolerant step leaves in [errs]: its error, wrapped, when
    it failed. *)
Definition recorded (msg : string) (err : option error) : list error :=
  match err with
  | Some e => [Errorf msg e]
  | None => []
  end.

(** What an aggregate reports: the failures it was combined from. *)
Definition reports (agg : option error) (e : error) : Prop :=
  match agg with
  | Some (Combined errs) => In e errs
  | _ => False
  end.

(** [State] with its [iota] numbering. *)
Inductive State : Type := Starting | Running | Closing | Closed.

Definition State_int (st : State) : Z :=
  match st with
  | Starting => 0
  | Running => 1
  | Closing => 2
  | Closed => 3
  end.

Definition all_States : list State := [Starting; Running; Closing; Closed].

(** Outcome of a piece of Go code: it yields a value, panics, or blocks for
    ever. *)
Inductive Res (A : Type) : Type :=
| Val (a : A)
| Panic (msg : string)
| Block.

Arguments Val {A} a.
Arguments Panic {A} msg.
Arguments Block {A}.

(** ** Channels *)

Record chan (A : Type) : Type := mkChan {
  chan_cap : Z;
  chan_buf : list A;
  chan_closed : bool
}.

(** [make(chan A, n)]. *)
Definition make_chan {A : Type} (n : Z) : chan A :=
  {| chan_cap := n; chan_buf := []; chan_closed := false |}.

(** [c <- v] with no receiver at hand: a nil channel and a full buffer
    block, a closed channel panics. *)
Definition chan_send {A : Type} (c : option (chan A)) (v : A) : Res (chan A) :=
  match c with
  | None => Block
  | Some ch =>
      if chan_closed ch then Panic "send on closed channel"
      else if Z.of_nat (List.length (chan_buf ch)) <? chan_cap ch
           then Val {| chan_cap := chan_cap ch;
                       chan_buf := chan_buf ch ++ [v];
                       chan_closed := false |}
           else Block
  end.

(** [close(c)]. *)
Definition chan_close {A : Type} (c : option (chan A)) : Res (chan A) :=
  match c with
  | None => Panic "close of nil channel"
  | Some ch =>
      if chan_closed ch then Panic "close of closed channel"
      else Val {| chan_cap := chan_cap ch;
                  chan_buf := chan_buf ch;
                  chan_closed := true |}
  end.

(** ** Integers *)

(** Conversion to and arithmetic in [uint64]. *)
Definition uint64 (x : Z) : Z := x mod 2 ^ 64.

Definition uint64_mul (x y : Z) : Z := uint64 (x * y).

(** The allocation limit of the Go runtime, [maxAlloc]: 2^48 bytes on
    linux/amd64. *)
Definition maxAlloc : Z := 2 ^ 48.

(** The panic of a method call through a nil pointer or a nil interface. *)
Definition nil_dereference : string :=
  "runtime error: invalid memory address or nil pointer dereference".

(** [make([]byte, n)] for an [n] of type [uint64].  Above [maxAlloc]
    [makeslice] panics.  Up to it the slice has [n] zero bytes when the
    runtime obtains the memory ([granted]; an empty slice needs none), and
    otherwise the runtime stops the process with a fatal error, which, like
    a panic that nothing recovers, ends the run. *)
Definition make_bytes (granted : bool) (n : Z) : Res (list Byte.byte) :=
  if maxAlloc <? n then Panic "runtime error: makeslice: len out of range"
  else if (n =? 0) || granted then Val (repeat Byte.x00 (Z.to_nat n))
  else Panic "fatal error: runtime: out of memory".

(** ** The collector and its collaborators *)

Inductive Signal : Type := Interrupt | SIGTERM.

Inductive Level : Type := Info | Warn | Error.

(** A logger built by [newLogger]; zap itself is outside the model, a call
    to the logger is recorded in the trace. *)
Inductive Logger : Type := ZapLogger.

(** A service instance made by [newService], named by the reference the
    runtime hands out. *)
Definition ServiceRef : Type := nat.

(** A configuration provider with the optional capabilities that the
    type assertions [.(parserprovider.Watchable)] and
    [.(parserprovider.Closeable)] test. *)
Record ParserProvider : Type := mkProvider {
  provider_name : string;
  is_Watchable : bool;
  is_Closeable : bool
}.

(** The cobra root command: [Use] and [Version]; its [RunE] closure is
    [RunE] below. *)
Record Command : Type := mkCommand {
  Use : string;
  Cmd_Version : string
}.

(** What wakes the [select] of [runAndWaitForShutdownEvent]. *)
Inductive ShutdownEvent : Type :=
| AsyncError (err : error)
| OsSignal (sg : Signal)
| StopRequest.

(** What a run leaves behind, in order: the calls to the logger (level and
    message, without the zap fields), the operations on the state channel,
    the calls to the collaborators with their answers, the assignments to
    [col.service], the goroutines started, and the entry into
    [reloadService]. *)
Inductive Event : Type :=
| EvLog (lvl : Level) (msg : string)
| EvSend (st : State)
| EvCloseStateChannel
| EvAddFlags (pkg : string)
| EvTelemetryInit (ballastSizeBytes : Z) (res : option error)
| EvTelemetryShutdown (res : option error)
| EvProviderGet (res : option error)
| EvProviderClose (res : option error)
| EvWatchForUpdate (res : option error)
| EvLoad (res : option error)
| EvValidate (res : option error)
| EvNewService (res : ServiceRef + error)
| EvServiceStart (svc : ServiceRef) (res : option error)
| EvServiceShutdown (svc : ServiceRef) (res : option error)
| EvAssignService (v : option ServiceRef)
| EvGo
| EvSignalNotify
| EvKeepAlive
| EvReloadService.

Definition sent_state (e : Event) : option State :=
  match e with
  | EvSend st => Some st
  | _ => None
  end.

(** The values sent on the state channel during a run. *)
Fixpoint sent (t : list Event) : list State :=
  match t with
  | [] => []
  | e :: t' =>
      match sent_state e with
      | Some st => st :: sent t'
      | None => sent t'
      end
  end.

Definition is_close (e : Event) : bool :=
  match e with EvCloseStateChannel => true | _ => false end.

Definition is_reload (e : Event) : bool :=
  match e with EvReloadService => true | _ => false end.

(** The teardown steps of the shutdown sequence. *)
Definition is_teardown (e : Event) : bool :=
  match e with
  | EvProviderClose _ | EvServiceShutdown _ _ | EvTelemetryShutdown _
  | EvKeepAlive => true
  | _ => false
  end.

Definition is_assign (e : Event) : bool :=
  match e with EvAssignService _ => true | _ => false end.

(** Events that touch neither the state channel nor [col.service], and
    are neither a teardown step nor a reload. *)
Definition inert (e : Event) : bool :=
  match e with
  | EvSend _ | EvCloseStateChannel | EvAssignService _ | EvReloadService => false
  | _ => negb (is_teardown e)
  end.

(** Events that leave the state channel alone. *)
Definition off_channel (e : Event) : bool :=
  match e with
  | EvSend _ | EvCloseStateChannel => false
  | _ => true
  end.

(** Classes of events used to count what a run does. *)
Definition is_provider_close (e : Event) : bool :=
  match e with EvProviderClose _ => true | _ => false end.

Definition is_telemetry_init (e : Event) : bool :=
  match e with EvTelemetryInit _ _ => true | _ => false end.

Definition is_telemetry_shutdown (e : Event) : bool :=
  match e with EvTelemetryShutdown _ => true | _ => false end.

Definition is_keep_alive (e : Event) : bool :=
  match e with EvKeepAlive => true | _ => false end.

Definition is_service_shutdown (e : Event) : bool :=
  match e with EvServiceShutdown _ _ => true | _ => false end.

Definition is_watch (e : Event) : bool :=
  match e with EvWatchForUpdate _ => true | _ => false end.

(** The events [setupConfigurationComponents] can leave. *)
Definition setup_event (e : Event) : bool :=
  match e with
  | EvLog _ _ | EvProviderGet _ | EvLoad _ | EvValidate _ | EvNewService _
  | EvServiceStart _ _ | EvAssignService _ | EvGo => true
  | _ => false
  end.

(** The events a watch goroutine can leave: those of the setup, the watch
    itself and the steps of [reloadService]. *)
Definition background (e : Event) : bool :=
  match e with
  | EvWatchForUpdate _ | EvReloadService | EvProviderClose _
  | EvServiceShutdown _ _ => true
  | _ => setup_event e
  end.

(** How many events of a trace are of a given class. *)
Definition count (p : Event -> bool) (t : list Event) : nat :=
  List.length (filter p t).

Definition error_of {A : Type} (r : A + error) : option error :=
  match r with
  | inl _ => None
  | inr e => Some e
  end.

Section Orchestrator.

Variables Factories Config Parser LoggingOption World : Type.

Record Collector : Type := mkCollector {
  info : component.BuildInfo;
  rootCmd : option Command;
  logger : option Logger;
  service : option ServiceRef;
  stateChannel : option (chan State);
  factories : Factories;
  parserProvider : option ParserProvider;
  stopTestChan : option (chan unit);
  signalsChannel : option (chan Signal);
  asyncErrorChannel : option (chan error)
}.

Record Parameters : Type := mkParameters {
  Params_Factories : Factories;
  Params_BuildInfo : component.BuildInfo;
  Params_ParserProvider : option ParserProvider;
  Params_LoggingOptions : list LoggingOption
}.

(** The [settings] handed to [newService]. *)
Record settings : Type := mkSettings {
  settings_Factories : Factories;
  settings_BuildInfo : component.BuildInfo;
  settings_Config : Config;
  settings_Logger : option Logger;
  settings_AsyncErrorChannel : option (chan error)
}.

(** The collaborators.  [parserprovider_Default] is the provider that
    [parserprovider.Default()] builds.  [runtime_grants n] tells whether the
    Go runtime obtains [n] bytes from the operating system.  [select_wait]
    is the scheduler seen from the [select] of
    [runAndWaitForShutdownEvent]: how many of the pending [WatchForUpdate]
    calls return while the primary flow is suspended, and the event that
    wakes it, if any. *)
Record Externals : Type := mkExternals {
  ValidateConfigFromFactories : Factories -> option error;
  parserprovider_Default : ParserProvider;
  newLogger : list LoggingOption -> World -> (Logger + error) * World;
  builder_MemBallastSize : World -> Z;
  runtime_grants : Z -> World -> bool;
  telemetry_init :
    option (chan error) -> Z -> option Logger -> World -> option error * World;
  telemetry_shutdown : World -> option error * World;
  provider_Get : ParserProvider -> World -> (Parser + error) * World;
  provider_WatchForUpdate : ParserProvider -> World -> option error * World;
  provider_Close : ParserProvider -> World -> option error * World;
  configloader_Load : Parser -> Factories -> World -> (Config + error) * World;
  Config_Validate : Config -> World -> option error * World;
  newService : settings -> World -> (ServiceRef + error) * World;
  service_Start : ServiceRef -> World -> option error * World;
  service_Shutdown : ServiceRef -> World -> option error * World;
  select_wait : World -> (nat * option ShutdownEvent) * World
}.

Variable ext : Externals.

(** The collector, the world around it and the watch goroutines that were
    started and whose [WatchForUpdate] has not returned yet (each with the
    [watchable] it captured). *)
Record Sys : Type := mkSys {
  col : Collector;
  world : World;
  goroutines : list ParserProvider
}.

Definition set_col (c : Collector) (s : Sys) : Sys :=
  {| col := c; world := world s; goroutines := goroutines s |}.

Definition set_world (w : World) (s : Sys) : Sys :=
  {| col := col s; world := w; goroutines := goroutines s |}.

Definition set_goroutines (g : list ParserProvider) (s : Sys) : Sys :=
  {| col := col s; world := world s; goroutines := g |}.

Definition set_rootCmd (v : option Command) (c : Collector) : Collector :=
  mkCollector (info c) v (logger c) (service c) (stateChannel c)
    (factories c) (parserProvider c) (stopTestChan c) (signalsChannel c)
    (asyncErrorChannel c).

Definition set_parserProvider (v : option ParserProvider) (c : Collector)
  : Collector :=
  mkCollector (info c) (rootCmd c) (logger c) (service c) (stateChannel c)
    (factories c) v (stopTestChan c) (signalsChannel c)
    (asyncErrorChannel c).

Definition set_logger (v : option Logger) (c : Collector) : Collector :=
  mkCollector (info c) (rootCmd c) v (service c) (stateChannel c)
    (factories c) (parserProvider c) (stopTestChan c) (signalsChannel c)
    (asyncErrorChannel c).

Definition set_service (v : option ServiceRef) (c : Collector) : Collector :=
  mkCollector (info c) (rootCmd c) (logger c) v (stateChannel c)
    (factories c) (parserProvider c) (stopTestChan c) (signalsChannel c)
    (asyncErrorChannel c).

Definition set_stateChannel (v : option (chan State)) (c : Collector)
  : Collector :=
  mkCollector (info c) (rootCmd c) (logger c) (service c) v
    (factories c) (parserProvider c) (stopTestChan c) (signalsChannel c)
    (asyncErrorChannel c).

Definition set_stopTestChan (v : option (chan unit)) (c : Collector)
  : Collector :=
  mkCollector (info c) (rootCmd c) (logger c) (service c) (stateChannel c)
    (factories c) (parserProvider c) v (signalsChannel c)
    (asyncErrorChannel c).

Definition set_signalsChannel (v : option (chan Signal)) (c : Collector)
  : Collector :=
  mkCollector (info c) (rootCmd c) (logger c) (service c) (stateChannel c)
    (factories c) (parserProvider c) (stopTestChan c) v
    (asyncErrorChannel c).

Definition set_asyncErrorChannel (v : option (chan error)) (c : Collector)
  : Collector :=
  mkCollector (info c) (rootCmd c) (logger c) (service c) (stateChannel c)
    (factories c) (parserProvider c) (stopTestChan c) (signalsChannel c) v.

(** *** The monad of the orchestrator: state, outcome and trace *)

Definition M (A : Type) : Type := Sys -> Res A * Sys * list Event.

Definition ret {A : Type} (a : A) : M A := fun s => (Val a, s, []).

Definition bind {A B : Type} (m : M A) (k : A -> M B) : M B :=
  fun s =>
    match m s with
    | (Val a, s1, t1) =>
        match k a s1 with
        | (r, s2, t2) => (r, s2, t1 ++ t2)
        end
    | (Panic msg, s1, t1) => (Panic msg, s1, t1)
    | (Block, s1, t1) => (Block, s1, t1)
    end.

(** A deferred function that calls [recover()]: after a panic of [m] the
    handler runs and the function returns normally. *)
Definition recover (m : M unit) (handler : string -> M unit) : M unit :=
  fun s =>
    match m s with
    | (Panic msg, s1, t1) =>
        match handler msg s1 with
        | (r, s2, t2) => (r, s2, t1 ++ t2)
        end
    | other => other
    end.

Definition emit (e : Event) : M unit := fun s => (Val tt, s, [e]).

Definition lift_res {A : Type} (r : Res A) : M A := fun s => (r, s, []).

Definition get_col : M Collector := fun s => (Val (col s), s, []).

Definition modify_col (f : Collector -> Collector) : M unit :=
  fun s => (Val tt, set_col (f (col s)) s, []).

(** A call to a collaborator: the world answers, the answer is recorded. *)
Definition extern {A : Type} (f : World -> A * World) (ev : A -> Event)
  : M A :=
  fun s =>
    match f (world s) with
    | (a, w) => (Val a, set_world w s, [ev a])
    end.

(** A call of [col.logger] in the code that runs under [RunE], which sets
    the logger before it calls [execute]. *)
Definition log (lvl : Level) (msg : string) : M unit := emit (EvLog lvl msg).

(** A question to the world that leaves no event of its own. *)
Definition consult {A : Type} (f : World -> A * World) : M A :=
  fun s =>
    match f (world s) with
    | (a, w) => (Val a, set_world w s, [])
    end.

Notation "x <- m ;; k" := (bind m (fun x => k))
  (at level 61, m at next level, right associativity).
Notation "m ;; k" := (bind m (fun _ => k))
  (at level 61, right associativity).

(** [col.stateChannel <- st]. *)
Definition send_state (st : State) : M unit :=
  c <- get_col ;;
  ch <- lift_res (chan_send (stateChannel c) st) ;;
  modify_col (set_stateChannel (Some ch)) ;;
  emit (EvSend st).

(** [close(col.stateChannel)]. *)
Definition close_state : M unit :=
  c <- get_col ;;
  ch <- lift_res (chan_close (stateChannel c)) ;;
  modify_col (set_stateChannel (Some ch)) ;;
  emit EvCloseStateChannel.

(** [col.service = v]. *)
Definition assign_service (v : option ServiceRef) : M unit :=
  modify_col (set_service v) ;;
  emit (EvAssignService v).

(** [go func() { ... }()] of [setupConfigurationComponents]: the goroutine
    is started and first waits in [watchable.WatchForUpdate()]. *)
Definition go_watch (watchable : ParserProvider) : M unit :=
  fun s => (Val tt, set_goroutines (goroutines s ++ [watchable]) s, [EvGo]).

(** *** application.go *)

(** [New]: the collector and the error, with the flag sets registered on
    the way.  The [RunE] closure of the root command is [RunE] below. *)
Definition New (params : Parameters)
  : option Collector * option error * list Event :=
  match ValidateConfigFromFactories ext (Params_Factories params) with
  | Some err => (None, Some err, [])
  | None =>
      let col :=
        {| info := Params_BuildInfo params;
           rootCmd := None;
           logger := None;
           service := None;
           stateChannel := Some (make_chan (State_int Closed + 1));
           factories := Params_Factories params;
           parserProvider := None;
           stopTestChan := None;
           signalsChannel := None;
           asyncErrorChannel := None |} in
      let rootCmd :=
        {| Use := component.BuildInfo_Command (Params_BuildInfo params);
           Cmd_Version := component.BuildInfo_Version (Params_BuildInfo params) |} in
      let addFlagsFns :=
        ["configtelemetry"; "parserprovider"; "telemetry"; "builder";
         "logger"] in
      let col := set_rootCmd (Some rootCmd) col in
      let parserProvider :=
        match Params_ParserProvider params with
        | None => parserprovider_Default ext
        | Some p => p
        end in
      let col := set_parserProvider (Some parserProvider) col in
      (Some col, None, map EvAddFlags addFlagsFns)
  end.

(** [GetStateChannel]. *)
Definition GetStateChannel (c : Collector) : option (chan State) :=
  stateChannel c.

(** [col.logger.Info(msg)] in [Shutdown].  [Shutdown] is exported and can
    be called when [col.logger] is nil: before [RunE] has set it, or after a
    [RunE] whose [newLogger] failed has set it back to nil.  The call through
    the nil logger panics. *)
Definition logger_Info (msg : string) : M unit :=
  c <- get_col ;;
  match logger c with
  | Some _ => log Info msg
  | None => lift_res (Panic nil_dereference)
  end.

(** [Shutdown]: [close(col.stopTestChan)] under a deferred [recover], whose
    handler calls the logger. *)
Definition Shutdown : M unit :=
  recover
    (c <- get_col ;;
     ch <- lift_res (chan_close (stopTestChan c)) ;;
     modify_col (set_stopTestChan (Some ch)))
    (fun _ => logger_Info "stopTestChan already closed").

Definition setupTelemetry (ballastSizeBytes : Z) : M (option error) :=
  log Info "Setting up own telemetry..." ;;
  c <- get_col ;;
  err <- extern
           (telemetry_init ext (asyncErrorChannel c) ballastSizeBytes
              (logger c))
           (EvTelemetryInit ballastSizeBytes) ;;
  match err with
  | Some err => ret (Some (Errorf "failed to initialize telemetry" err))
  | None => ret None
  end.

(** [setupConfigurationComponents].  A nil [col.parserProvider] makes the
    call of [Get] panic. *)
Definition setupConfigurationComponents : M (option error) :=
  log Info "Loading configuration..." ;;
  c <- get_col ;;
  match parserProvider c with
  | None => lift_res (Panic nil_dereference)
  | Some pp =>
      cp <- extern (provider_Get ext pp) (fun r => EvProviderGet (error_of r)) ;;
      match cp with
      | inr err => ret (Some (Errorf "cannot load configuration's parser" err))
      | inl cp =>
          cfg <- extern (configloader_Load ext cp (factories c))
                   (fun r => EvLoad (error_of r)) ;;
          match cfg with
          | inr err => ret (Some (Errorf "cannot load configuration" err))
          | inl cfg =>
              err <- extern (Config_Validate ext cfg) EvValidate ;;
              match err with
              | Some err => ret (Some (Errorf "invalid configuration" err))
              | None =>
                  log Info "Applying configuration..." ;;
                  svc <- extern
                           (newService ext
                              {| settings_Factories := factories c;
                                 settings_BuildInfo := info c;
                                 settings_Config := cfg;
                                 settings_Logger := logger c;
                                 settings_AsyncErrorChannel :=
                                   asyncErrorChannel c |})
                           EvNewService ;;
                  match svc with
                  | inr err => ret (Some err)
                  | inl svc =>
                      err <- extern (service_Start ext svc)
                               (EvServiceStart svc) ;;
                      match err with
                      | Some err => ret (Some err)
                      | None =>
                          assign_service (Some svc) ;;
                          (if is_Watchable pp then go_watch pp else ret tt) ;;
                          ret None
                      end
                  end
              end
          end
      end
  end.

(** [reloadService]. *)
Definition reloadService : M (option error) :=
  emit EvReloadService ;;
  c <- get_col ;;
  err <- match parserProvider c with
         | Some closeable =>
             if is_Closeable closeable
             then extern (provider_Close ext closeable) EvProviderClose
             else ret None
         | None => ret None
         end ;;
  match err with
  | Some err => ret (Some (Errorf "failed close current config provider" err))
  | None =>
      c <- get_col ;;
      err <- match service c with
             | Some retiringService =>
                 assign_service None ;;
                 extern (service_Shutdown ext retiringService)
                   (EvServiceShutdown retiringService)
             | None => ret None
             end ;;
      match err with
      | Some err =>
          ret (Some (Errorf "failed to shutdown the retiring config" err))
      | None =>
          err <- setupConfigurationComponents ;;
          match err with
          | Some err =>
              ret (Some (Errorf "failed to setup configuration components" err))
          | None => ret None
          end
      end
  end.

(** The body of the goroutine started by [setupConfigurationComponents]. *)
Definition watchTask (watchable : ParserProvider) : M unit :=
  err <- extern (provider_WatchForUpdate ext watchable) EvWatchForUpdate ;;
  if errors_Is_ErrSessionClosed err
  then log Info "Config WatchForUpdate closed"
  else
    log Warn "Config WatchForUpdated exited" ;;
    _ <- reloadService ;;
    ret tt.

(** While the primary flow is suspended, [k] of the pending watch
    goroutines get their answer and run to their end, oldest first. *)
Fixpoint run_watch_tasks (k : nat) : M unit :=
  match k with
  | O => ret tt
  | S k' =>
      fun s =>
        match goroutines s with
        | [] => (Val tt, s, [])
        | watchable :: rest =>
            (watchTask watchable ;; run_watch_tasks k')
              (set_goroutines rest s)
        end
  end.

(** The [select] over [asyncErrorChannel], [signalsChannel] and
    [stopTestChan].  The last case is ready once another goroutine has
    called [Shutdown]; with no event at all the primary flow stays
    suspended. *)
Definition select_shutdown_event : M ShutdownEvent :=
  kev <- consult (select_wait ext) ;;
  run_watch_tasks (fst kev) ;;
  match snd kev with
  | None => lift_res Block
  | Some StopRequest => Shutdown ;; ret StopRequest
  | Some ev => ret ev
  end.

Definition runAndWaitForShutdownEvent : M unit :=
  log Info "Everything is ready. Begin running and processing data." ;;
  modify_col (set_signalsChannel (Some (make_chan 1))) ;;
  emit EvSignalNotify ;;
  modify_col (set_stopTestChan (Some (make_chan 0))) ;;
  send_state Running ;;
  ev <- select_shutdown_event ;;
  match ev with
  | AsyncError _ =>
      log Error "Asynchronous error received, terminating process"
  | OsSignal _ => log Info "Received signal from OS"
  | StopRequest => log Info "Received stop test request"
  end ;;
  send_state Closing.

(** [createMemoryBallast]: the buffer (nil when there is none) and its
    size in bytes. *)
Definition createMemoryBallast : M (option (list Byte.byte) * Z) :=
  fun s =>
    let ballastSizeMiB := builder_MemBallastSize ext (world s) in
    if 0 <? ballastSizeMiB then
      let ballastSizeBytes :=
        uint64_mul (uint64_mul (uint64 ballastSizeMiB) 1024) 1024 in
      (ballast <- lift_res
                    (make_bytes
                       (runtime_grants ext ballastSizeBytes (world s))
                       ballastSizeBytes) ;;
       log Info "Using memory ballast" ;;
       ret (Some ballast, ballastSizeBytes)) s
    else ret (None, 0) s.

(** The shutdown sequence of [execute]: from [var errs []error] to the
    return. *)
Definition execute_shutdown (ballast : option (list Byte.byte))
  : M (option error) :=
  let errs : list error := [] in
  emit EvKeepAlive ;;
  log Info "Starting shutdown..." ;;
  c <- get_col ;;
  errs <- match parserProvider c with
          | Some closable =>
              if is_Closeable closable then
                err <- extern (provider_Close ext closable) EvProviderClose ;;
                match err with
                | Some err => ret (errs ++ [Errorf "failed to close config" err])
                | None => ret errs
                end
              else ret errs
          | None => ret errs
          end ;;
  c <- get_col ;;
  errs <- match service c with
          | Some svc =>
              err <- extern (service_Shutdown ext svc) (EvServiceShutdown svc) ;;
              match err with
              | Some err =>
                  ret (errs ++ [Errorf "failed to shutdown service" err])
              | None => ret errs
              end
          | None => ret errs
          end ;;
  err <- extern (telemetry_shutdown ext) EvTelemetryShutdown ;;
  errs <- match err with
          | Some err =>
              ret (errs ++
                   [Errorf "failed to shutdown application telemetry" err])
          | None => ret errs
          end ;;
  log Info "Shutdown complete." ;;
  send_state Closed ;;
  close_state ;;
  ret (Combine errs).

(** [execute]. *)
Definition execute : M (option error) :=
  c <- get_col ;;
  log Info
    (String.append "Starting "
       (String.append (component.BuildInfo_Command (info c)) "...")) ;;
  send_state Starting ;;
  bb <- createMemoryBallast ;;
  modify_col (set_asyncErrorChannel (Some (make_chan 0))) ;;
  err <- setupTelemetry (snd bb) ;;
  match err with
  | Some err => ret (Some err)
  | None =>
      err <- setupConfigurationComponents ;;
      match err with
      | Some err => ret (Some err)
      | None =>
          runAndWaitForShutdownEvent ;;
          execute_shutdown (fst bb)
      end
  end.

(** The system at the point where the setup of [execute] starts:
    [Starting] has been sent on the open state channel [c] and the async
    error channel has been made. *)
Definition entered (s : Sys) (c : chan State) : Sys :=
  set_col
    (set_asyncErrorChannel (Some (make_chan 0))
       (set_stateChannel
          (Some {| chan_cap := chan_cap c;
                   chan_buf := chan_buf c ++ [Starting];
                   chan_closed := false |})
          (col s)))
    s.

(** Two collectors that differ at most in [col.service]. *)
Definition same_but_service (c c' : Collector) : Prop :=
  exists v, c' = set_service v c.

(** The teardown steps the shutdown sequence goes through in a collector
    [c], with the answers they get. *)
Definition teardown_steps (c : Collector)
    (cerr serr terr : option error) : list Event :=
  (match parserProvider c with
   | Some closable =>
       if is_Closeable closable then [EvProviderClose cerr] else []
   | None => []
   end)
    ++ (match service c with
        | Some svc => [EvServiceShutdown svc serr]
        | None => []
        end)
    ++ [EvTelemetryShutdown terr].

(** The [RunE] closure of the root command built by [New]. *)
Definition RunE (opts : list LoggingOption) : M (option error) :=
  lg <- consult (newLogger ext opts) ;;
  match lg with
  | inr err =>
      modify_col (set_logger None) ;;
      ret (Some (Errorf "failed to get logger" err))
  | inl lg =>
      modify_col (set_logger (Some lg)) ;;
      execute
  end.

End Orchestrator.

(** ** A scripted environment

    A concrete world to run the orchestrator in: each collaborator answers
    as the script says, the world counts the service instances handed out. *)

Record Script : Type := mkScript {
  on_ValidateConfigFromFactories : option error;
  on_MemBallastSize : Z;
  on_telemetry_init : option error;
  on_telemetry_shutdown : option error;
  on_Get : option error;
  on_Load : option error;
  on_Validate : option error;
  on_newService : option error;
  on_Start : option error;
  on_service_Shutdown : option error;
  on_Close : option error;
  on_WatchForUpdate : option error;
  on_select : nat * option ShutdownEvent
}.

Definition answer (r : option error) : unit + error :=
  match r with
  | None => inl tt
  | Some e => inr e
  end.

Definition default_provider : ParserProvider :=
  {| provider_name := "default"; is_Watchable := false; is_Closeable := false |}.

(** The environment of a script, on a machine where the runtime obtains up
    to [memory] bytes and where [newLogger] answers [logger_err]. *)
Definition scripted_on (memory : Z) (logger_err : option error) (sc : Script)
  : Externals unit unit unit unit nat :=
  {| ValidateConfigFromFactories := fun _ => on_ValidateConfigFromFactories sc;
     parserprovider_Default := default_provider;
     newLogger := fun _ w =>
       match logger_err with
       | None => (inl ZapLogger, w)
       | Some e => (inr e, w)
       end;
     builder_MemBallastSize := fun _ => on_MemBallastSize sc;
     runtime_grants := fun n _ => n <=? memory;
     telemetry_init := fun _ _ _ w => (on_telemetry_init sc, w);
     telemetry_shutdown := fun w => (on_telemetry_shutdown sc, w);
     provider_Get := fun _ w => (answer (on_Get sc), w);
     provider_WatchForUpdate := fun _ w => (on_WatchForUpdate sc, w);
     provider_Close := fun _ w => (on_Close sc, w);
     configloader_Load := fun _ _ w => (answer (on_Load sc), w);
     Config_Validate := fun _ w => (on_Validate sc, w);
     newService := fun _ w =>
       match on_newService sc with
       | None => (inl w, S w)
       | Some e => (inr e, w)
       end;
     service_Start := fun _ w => (on_Start sc, w);
     service_Shutdown := fun _ w => (on_service_Shutdown sc, w);
     select_wait := fun w => (on_select sc, w) |}.

(** The environment of a script with all the memory the runtime can ask for
    and a working [newLogger]. *)
Definition scripted (sc : Script) : Externals unit unit unit unit nat :=
  scripted_on maxAlloc None sc.

(** A script in which the listed answers vary; every other call succeeds,
    no watch goroutine returns during the wait and the process receives
    SIGTERM. *)
Definition script (factories_err : option error) (MiB : Z)
    (init_err validate_err close_err down_err watch_err : option error)
  : Script :=
  {| on_ValidateConfigFromFactories := factories_err;
     on_MemBallastSize := MiB;
     on_telemetry_init := init_err;
     on_telemetry_shutdown := None;
     on_Get := None;
     on_Load := None;
     on_Validate := validate_err;
     on_newService := None;
     on_Start := None;
     on_service_Shutdown := down_err;
     on_Close := close_err;
     on_WatchForUpdate := watch_err;
     on_select := (O, Some (OsSignal SIGTERM)) |}.

(** Everything succeeds, no ballast. *)
Definition calm : Script := script None 0 None None None None None.

(** The factories are rejected. *)
Definition bad_factories : Script :=
  script (Some (ErrNew "bad factory")) 0 None None None None None.

(** A ballast of 1 MiB, and one of 2^44 MiB. *)
Definition one_MiB : Script := script None 1 None None None None None.

Definition huge_ballast : Script :=
  script None 17592186044416 None None None None None.

(** A ballast of 2^29 MiB, that is 2^49 bytes, and one of 2 GiB. *)
Definition beyond_limit : Script :=
  script None 536870912 None None None None None.

Definition two_GiB : Script := script None 2048 None None None None None.

(** Telemetry cannot be initialised. *)
Definition no_telemetry : Script :=
  script None 0 (Some (ErrNew "no telemetry")) None None None None.

(** The configuration does not validate. *)
Definition invalid_config : Script :=
  script None 0 None (Some (ErrNew "no pipelines")) None None None.

(** The provider cannot be closed and the service cannot be shut down. *)
Definition stubborn : Script :=
  script None 0 None None (Some (ErrNew "provider busy"))
    (Some (ErrNew "service busy")) None.

(** The provider closes, the service cannot be shut down. *)
Definition stuck_service : Script :=
  script None 0 None None None (Some (ErrNew "service busy")) None.

(** The same script with another course of the wait. *)
Definition with_select (sel : nat * option ShutdownEvent) (sc : Script)
  : Script :=
  {| on_ValidateConfigFromFactories := on_ValidateConfigFromFactories sc;
     on_MemBallastSize := on_MemBallastSize sc;
     on_telemetry_init := on_telemetry_init sc;
     on_telemetry_shutdown := on_telemetry_shutdown sc;
     on_Get := on_Get sc;
     on_Load := on_Load sc;
     on_Validate := on_Validate sc;
     on_newService := on_newService sc;
     on_Start := on_Start sc;
     on_service_Shutdown := on_service_Shutdown sc;
     on_Close := on_Close sc;
     on_WatchForUpdate := on_WatchForUpdate sc;
     on_select := sel |}.

(** During the wait the watch goroutine gets nil from [WatchForUpdate] and
    reloads the service; then another goroutine calls [Shutdown]. *)
Definition reloading : Script := with_select (1%nat, Some StopRequest) calm.

(** No shutdown event ever comes. *)
Definition endless : Script := with_select (O, None) calm.


Definition demo_params (pp : option ParserProvider) : Parameters unit unit :=
  {| Params_Factories := tt;
     Params_BuildInfo :=
       {| component.BuildInfo_Command := "otelcol";
          component.BuildInfo_Version := "latest" |};
     Params_ParserProvider := pp;
     Params_LoggingOptions := [] |}.

Definition full_provider : ParserProvider :=
  {| provider_name := "full"; is_Watchable := true; is_Closeable := true |}.

(** The collector [New] builds from [demo_params], once [RunE] has set its
    logger. *)
Definition demo_col (pp : option ParserProvider) : Collector unit :=
  set_logger (Some ZapLogger)
    {| info := Params_BuildInfo (demo_params pp);
       rootCmd := Some {| Use := "otelcol"; Cmd_Version := "latest" |};
       logger := None;
       service := None;
       stateChannel := Some (make_chan 4);
       factories := tt;
       parserProvider :=
         Some match pp with Some p => p | None => default_provider end;
       stopTestChan := None;
       signalsChannel := None;
       asyncErrorChannel := None |}.

Definition demo_sys (pp : option ParserProvider) : Sys unit nat :=
  {| col := demo_col pp; world := O; goroutines := [] |}.

(** A collector that runs service 7 and watches its provider. *)
Definition running_sys : Sys unit nat :=
  {| col := set_service (Some 7%nat) (demo_col (Some full_provider));
     world := 8%nat;
     goroutines := [full_provider] |}.

(** The same collector in the wait of [runAndWaitForShutdownEvent], with
    the stop channel just made. *)
Definition waiting_sys : Sys unit nat :=
  set_col (set_stopTestChan (Some (make_chan 0)) (col running_sys))
    running_sys.

(** A collector whose run is over: the four states were sent and the state
    channel is closed. *)
Definition finished_sys : Sys unit nat :=
  set_col
    (set_stateChannel
       (Some {| chan_cap := 4; chan_buf := all_States; chan_closed := true |})
       (col running_sys))
    running_sys.

(** A run that a call of [Shutdown] stops. *)
Definition stopping : Script := with_select (O, Some StopRequest) calm.

(** The collector after that run, and after a second [RunE] on it whose
    [newLogger] fails. *)
Definition stopped_run : Sys unit nat :=
  snd (fst (execute (scripted stopping) (demo_sys None))).

Definition rerun_without_logger : Sys unit nat :=
  snd (fst (RunE (scripted_on maxAlloc (Some (ErrNew "no logger")) stopping)
              [] stopped_run)).

(** The same collector in the wait of [runAndWaitForShutdownEvent], after a
    first call of [Shutdown]. *)
Definition stopped_sys : Sys unit nat :=
  set_col
    (set_stopTestChan
       (Some {| chan_cap := 0; chan_buf := []; chan_closed := true |})
       (col running_sys))
    running_sys.


(** * Properties *)

(** ** Traces *)

Lemma sent_app (a b : list Event) : sent (a ++ b) = sent a ++ sent b.
Proof.
  induction a as [|e a IH]; simpl; [reflexivity|].
  destruct (sent_state e); simpl; now rewrite IH.
Qed.

Lemma inert_off_channel (t : list Event) :
  forallb inert t = true -> forallb off_channel t = true.
Proof.
  induction t as [|e t IH]; simpl; [reflexivity|].
  intros H. apply andb_true_iff in H. destruct H as [He Ht].
  rewrite (IH Ht). destruct e; simpl in *; congruence.
Qed.

Lemma off_channel_sent (t : list Event) :
  forallb off_channel t = true -> sent t = [].
Proof.
  induction t as [|e t IH]; simpl; [reflexivity|].
  intros H. apply andb_true_iff in H. destruct H as [He Ht].
  destruct e; simpl in *; try discriminate; auto.
Qed.

Lemma off_channel_close (t : list Event) :
  forallb off_channel t = true -> filter is_close t = [].
Proof.
  induction t as [|e t IH]; simpl; [reflexivity|].
  intros H. apply andb_true_iff in H. destruct H as [He Ht].
  destruct e; simpl in *; try discriminate; auto.
Qed.

Lemma inert_filter (p : Event -> bool) (t : list Event) :
  (forall e, inert e = true -> p e = false) ->
  forallb inert t = true -> filter p t = [].
Proof.
  intros Hp. induction t as [|e t IH]; simpl; [reflexivity|].
  intros H. apply andb_true_iff in H. destruct H as [He Ht].
  rewrite (Hp e He). auto.
Qed.

Lemma inert_not_teardown (e : Event) : inert e = true -> is_teardown e = false.
Proof. destruct e; simpl; congruence. Qed.

Lemma inert_not_assign (e : Event) : inert e = true -> is_assign e = false.
Proof. destruct e; simpl; congruence. Qed.

Lemma inert_not_reload (e : Event) : inert e = true -> is_reload e = false.
Proof. destruct e; simpl; congruence. Qed.

Lemma inert_no_assignment (t : list Event) (v : option ServiceRef) :
  forallb inert t = true -> ~ In (EvAssignService v) t.
Proof.
  intros H Hin. rewrite forallb_forall in H.
  specialize (H _ Hin). discriminate.
Qed.

Lemma forallb_filter_nil (q p : Event -> bool) (t : list Event) :
  (forall e, q e = true -> p e = false) ->
  forallb q t = true -> filter p t = [].
Proof.
  intros Hqp. induction t as [|e t IH]; simpl; [reflexivity|].
  intros H. apply andb_true_iff in H. destruct H as [He Ht].
  rewrite (Hqp e He). auto.
Qed.

Lemma forallb_weaken (q q' : Event -> bool) (t : list Event) :
  (forall e, q e = true -> q' e = true) ->
  forallb q t = true -> forallb q' t = true.
Proof.
  intros Hqq. induction t as [|e t IH]; simpl; [reflexivity|].
  intros H. apply andb_true_iff in H. destruct H as [He Ht].
  rewrite (Hqq e He). auto.
Qed.

Lemma count_app (p : Event -> bool) (a b : list Event) :
  count p (a ++ b) = (count p a + count p b)%nat.
Proof. unfold count. now rewrite filter_app, length_app. Qed.

Lemma count_cons (p : Event -> bool) (e : Event) (t : list Event) :
  count p (e :: t) = ((if p e then 1 else 0) + count p t)%nat.
Proof. unfold count. simpl. now destruct (p e). Qed.

Lemma count_none (q p : Event -> bool) (t : list Event) :
  (forall e, q e = true -> p e = false) ->
  forallb q t = true -> count p t = O.
Proof.
  intros Hqp Hq. unfold count. now rewrite (forallb_filter_nil q p t Hqp Hq).
Qed.

Lemma background_off_channel (e : Event) :
  background e = true -> off_channel e = true.
Proof. destruct e; simpl; congruence. Qed.

Lemma setup_event_off_channel (e : Event) :
  setup_event e = true -> off_channel e = true.
Proof. destruct e; simpl; congruence. Qed.

Lemma setup_event_background (e : Event) :
  setup_event e = true -> background e = true.
Proof. destruct e; simpl; congruence. Qed.

Lemma all_States_complete (st : State) : In st all_States.
Proof. destruct st; simpl; tauto. Qed.

Lemma all_States_NoDup : NoDup all_States.
Proof.
  unfold all_States.
  repeat constructor; simpl; intuition discriminate.
Qed.

(** ** Integers and buffers *)

Lemma uint64_small (x : Z) : 0 <= x < 2 ^ 64 -> uint64 x = x.
Proof. intros H. unfold uint64. now apply Z.mod_small. Qed.

Lemma ballast_bytes_mod (n : Z) :
  uint64_mul (uint64_mul (uint64 n) 1024) 1024 = (n * 1048576) mod 2 ^ 64.
Proof.
  unfold uint64_mul, uint64.
  rewrite Z.mul_mod_idemp_l by lia.
  rewrite <- Z.mul_assoc.
  rewrite Z.mul_mod_idemp_l by lia.
  f_equal; lia.
Qed.

Lemma ballast_bytes_exact (n : Z) :
  0 <= n < 2 ^ 44 ->
  uint64_mul (uint64_mul (uint64 n) 1024) 1024 = n * 1048576.
Proof.
  intros H. rewrite ballast_bytes_mod. apply Z.mod_small. lia.
Qed.

Lemma make_bytes_ok (granted : bool) (n : Z) :
  0 <= n <= maxAlloc ->
  n = 0 \/ granted = true ->
  exists ballast,
    make_bytes granted n = Val ballast /\ Z.of_nat (List.length ballast) = n.
Proof.
  intros [Hlo Hhi] Hmem. unfold make_bytes.
  assert (Hfit : (maxAlloc <? n) = false) by (apply Z.ltb_ge; lia).
  rewrite Hfit.
  assert (Hgo : ((n =? 0) || granted) = true).
  { destruct Hmem as [->| ->]; [reflexivity|apply orb_true_r]. }
  rewrite Hgo.
  eexists. split; [reflexivity|].
  rewrite repeat_length. now apply Z2Nat.id.
Qed.

Lemma make_bytes_too_long (granted : bool) (n : Z) :
  maxAlloc < n ->
  make_bytes granted n = Panic "runtime error: makeslice: len out of range".
Proof.
  intros H. unfold make_bytes.
  apply Z.ltb_lt in H. now rewrite H.
Qed.

Lemma make_bytes_out_of_memory (n : Z) :
  0 < n <= maxAlloc ->
  make_bytes false n = Panic "fatal error: runtime: out of memory".
Proof.
  intros [Hlo Hhi]. unfold make_bytes.
  assert (Hfit : (maxAlloc <? n) = false) by (apply Z.ltb_ge; lia).
  assert (Hnz : (n =? 0) = false) by (apply Z.eqb_neq; lia).
  now rewrite Hfit, Hnz.
Qed.

Lemma make_bytes_val (granted : bool) (n : Z) (ballast : list Byte.byte) :
  0 <= n ->
  make_bytes granted n = Val ballast ->
  Z.of_nat (List.length ballast) = n /\ n <= maxAlloc.
Proof.
  intros Hlo. unfold make_bytes.
  destruct (maxAlloc <? n) eqn:Hfit; [discriminate|].
  destruct ((n =? 0) || granted); [|discriminate].
  intros H. injection H as <-.
  apply Z.ltb_ge in Hfit. split; [|exact Hfit].
  rewrite repeat_length. now apply Z2Nat.id.
Qed.

Section Facts.

Variables Factories Config Parser LoggingOption World : Type.
Variable ext : Externals Factories Config Parser LoggingOption World.

Local Abbreviation Sys := (Sys Factories World).

Ltac mrun :=
  unfold bind, ret, emit, log, extern, consult, lift_res, get_col,
    modify_col, assign_service, go_watch; simpl.

Ltac mcase :=
  match goal with
  | |- context [match ?x with _ => _ end] =>
      lazymatch x with
      | context [match _ with _ => _ end] => fail
      | _ => destruct x eqn:?
      end
  end; simpl.

(** *** createMemoryBallast *)

(** C7 (as amended): with a configured size of 0 MiB [createMemoryBallast]
    returns no buffer and 0 bytes; for every configured size N > 0 MiB whose
    byte count N * 1,048,576 does not exceed the allocation limit of the
    runtime (2^48 bytes, that is N <= 2^28) and for which the runtime
    obtains the memory, it returns a buffer of exactly N * 1,048,576 bytes
    together with that byte count. *)
Theorem createMemoryBallast_sizes (s : Sys) :
  let N := builder_MemBallastSize ext (world s) in
  (N = 0 -> createMemoryBallast ext s = (Val (None, 0), s, [])) /\
  (0 < N ->
   N * 1048576 <= maxAlloc ->
   runtime_grants ext (N * 1048576) (world s) = true ->
   exists ballast,
     createMemoryBallast ext s =
       (Val (Some ballast, N * 1048576), s,
        [EvLog Info "Using memory ballast"]) /\
     Z.of_nat (List.length ballast) = N * 1048576).
Proof.
  intros N. split.
  - intros HN. unfold createMemoryBallast. fold N. rewrite HN.
    reflexivity.
  - intros HN Hfit Hmem. unfold createMemoryBallast. fold N.
    assert (Hpos : (0 <? N) = true) by (apply Z.ltb_lt; lia).
    rewrite Hpos.
    rewrite ballast_bytes_exact by (unfold maxAlloc in Hfit; lia).
    rewrite Hmem.
    destruct (@make_bytes_ok true (N * 1048576)) as (ballast & Hmake & Hlen);
      [lia|now right|].
    exists ballast. split; [|exact Hlen].
    mrun. rewrite Hmake. reflexivity.
Qed.

(** Whatever the configured size N > 0, the byte count is N * 1,048,576
    reduced modulo 2^64.  Above the allocation limit the allocation panics;
    up to it the buffer has that many bytes when the runtime obtains the
    memory, and the run ends with a fatal error when it does not. *)
Lemma createMemoryBallast_wraparound (s : Sys) :
  let N := builder_MemBallastSize ext (world s) in
  let bytes := (N * 1048576) mod 2 ^ 64 in
  0 < N ->
  (bytes <= maxAlloc ->
   runtime_grants ext bytes (world s) = true ->
   exists ballast,
     createMemoryBallast ext s =
       (Val (Some ballast, bytes), s, [EvLog Info "Using memory ballast"]) /\
     Z.of_nat (List.length ballast) = bytes) /\
  (0 < bytes <= maxAlloc ->
   runtime_grants ext bytes (world s) = false ->
   createMemoryBallast ext s =
     (Panic "fatal error: runtime: out of memory", s, [])) /\
  (maxAlloc < bytes ->
   createMemoryBallast ext s =
     (Panic "runtime error: makeslice: len out of range", s, [])).
Proof.
  intros N bytes HN. unfold createMemoryBallast. fold N.
  assert (Hpos : (0 <? N) = true) by (apply Z.ltb_lt; lia).
  rewrite Hpos, ballast_bytes_mod. fold bytes.
  assert (Hlo : 0 <= bytes) by (apply Z.mod_pos_bound; lia).
  split; [|split].
  - intros Hb Hmem. rewrite Hmem.
    destruct (@make_bytes_ok true bytes) as (ballast & Hmake & Hlen);
      [lia|now right|].
    exists ballast. split; [|exact Hlen].
    mrun. rewrite Hmake. reflexivity.
  - intros Hb Hmem. rewrite Hmem.
    mrun. rewrite (make_bytes_out_of_memory Hb). reflexivity.
  - intros Hb. mrun. rewrite (make_bytes_too_long _ Hb). reflexivity.
Qed.

(** *** Shutdown *)

Lemma Shutdown_closes (s : Sys) (ch : chan unit) :
  stopTestChan (col s) = Some ch ->
  chan_closed ch = false ->
  Shutdown s =
    (Val tt,
     set_col
       (set_stopTestChan
          (Some {| chan_cap := chan_cap ch;
                   chan_buf := chan_buf ch;
                   chan_closed := true |}) (col s)) s,
     []).
Proof.
  intros Hch Hopen.
  unfold Shutdown, recover, bind, get_col, lift_res, modify_col, chan_close.
  rewrite Hch, Hopen. reflexivity.
Qed.

(** On a closed stop channel the second [close] panics and the handler
    runs: with a logger it logs and [Shutdown] returns. *)
Lemma Shutdown_on_closed (s : Sys) (ch : chan unit) (lg : Logger) :
  stopTestChan (col s) = Some ch ->
  chan_closed ch = true ->
  logger (col s) = Some lg ->
  Shutdown s = (Val tt, s, [EvLog Info "stopTestChan already closed"]).
Proof.
  intros Hch Hclosed Hlg.
  unfold Shutdown, recover, logger_Info, bind, get_col, lift_res, modify_col,
    chan_close, log, emit.
  rewrite Hch, Hclosed, Hlg. reflexivity.
Qed.

(** With a nil logger the handler itself panics, and the panic leaves
    [Shutdown]. *)
Lemma Shutdown_without_logger (s : Sys) (ch : chan unit) :
  stopTestChan (col s) = Some ch ->
  chan_closed ch = true ->
  logger (col s) = None ->
  Shutdown s = (Panic nil_dereference, s, []).
Proof.
  intros Hch Hclosed Hlg.
  unfold Shutdown, recover, logger_Info, bind, get_col, lift_res, modify_col,
    chan_close, log, emit.
  rewrite Hch, Hclosed, Hlg. reflexivity.
Qed.

(** C9 (as amended): once the stop signal is closed, on a collector whose
    logger is set, a further call of [Shutdown] returns normally (the panic
    of the second [close] is recovered, which the logger records) and leaves
    the collector and its world as they were. *)
Theorem Shutdown_idempotent (s : Sys) (ch : chan unit) :
  stopTestChan (col s) = Some ch ->
  chan_closed ch = true ->
  logger (col s) <> None ->
  Shutdown s = (Val tt, s, [EvLog Info "stopTestChan already closed"]).
Proof.
  intros Hch Hclosed Hlg.
  destruct (logger (col s)) as [lg|] eqn:Hlogger; [|contradiction].
  exact (Shutdown_on_closed s Hch Hclosed Hlogger).
Qed.

(** *** New *)

(** C10: [New] validates the factories before anything else: when the
    validation fails it returns no collector, the validation error, and has
    done nothing; when it succeeds the collector has a provider (the one of
    the parameters, the default one when they have none) and an open, empty
    state channel whose capacity is the number of [State] values. *)
Theorem New_validates_first (params : Parameters Factories LoggingOption) :
  (forall err,
      ValidateConfigFromFactories ext (Params_Factories params) = Some err ->
      New ext params = (None, Some err, [])) /\
  (ValidateConfigFromFactories ext (Params_Factories params) = None ->
   exists c t,
     New ext params = (Some c, None, t) /\
     parserProvider c <> None /\
     (Params_ParserProvider params = None ->
      parserProvider c = Some (parserprovider_Default ext)) /\
     (forall p, Params_ParserProvider params = Some p ->
                parserProvider c = Some p) /\
     stateChannel c = Some (make_chan (Z.of_nat (List.length all_States))) /\
     service c = None).
Proof.
  split.
  - intros err Herr. unfold New. now rewrite Herr.
  - intros Hok. unfold New. rewrite Hok.
    eexists. eexists. split; [reflexivity|].
    simpl. repeat split.
    + discriminate.
    + intros Hnone. now rewrite Hnone.
    + intros p Hp. now rewrite Hp.
Qed.

(** *** reloadService *)

(** C5: when the provider is closeable and its [Close] fails,
    [reloadService] returns the wrapped error at once; the collector is
    untouched (the old service stays) and neither the shutdown of the
    service nor the setup is run. *)
Theorem reloadService_close_failure
    (s : Sys) (closeable : ParserProvider) (e : error) (w : World) :
  parserProvider (col s) = Some closeable ->
  is_Closeable closeable = true ->
  provider_Close ext closeable (world s) = (Some e, w) ->
  reloadService ext s =
    (Val (Some (Errorf "failed close current config provider" e)),
     set_world w s,
     [EvReloadService; EvProviderClose (Some e)]).
Proof.
  intros Hpp Hcl Hclose.
  unfold reloadService, bind, emit, get_col, extern, ret. simpl.
  rewrite Hpp, Hcl, Hclose. reflexivity.
Qed.

(** *** setupConfigurationComponents *)

(** What a run of [setupConfigurationComponents] amounts to, by its
    outcome. *)
Lemma setupConfigurationComponents_outcome (s : Sys) :
  match setupConfigurationComponents ext s with
  | (Val None, s', t) =>
      exists pp svc pre,
        parserProvider (col s) = Some pp /\
        t = pre ++ [EvServiceStart svc None; EvAssignService (Some svc)]
                ++ (if is_Watchable pp then [EvGo] else []) /\
        forallb inert pre = true /\
        col s' = set_service (Some svc) (col s) /\
        goroutines s' =
          goroutines s ++ (if is_Watchable pp then [pp] else [])
  | (Val (Some e), s', t) =>
      parserProvider (col s) <> None /\
      forallb inert t = true /\
      col s' = col s /\ goroutines s' = goroutines s
  | (Panic _, s', t) =>
      parserProvider (col s) = None /\ s' = s /\ forallb inert t = true
  | (Block, _, _) => False
  end.
Proof.
  unfold setupConfigurationComponents. mrun.
  destruct (parserProvider (col s)) as [pp|] eqn:Hpp; simpl;
    [|now repeat split].
  repeat mcase; subst; simpl;
    try (repeat split; (discriminate || reflexivity)).
  all: match goal with
       | H : service_Start ext ?svc _ = _, W : is_Watchable ?q = _ |- _ =>
           exists q, svc,
             [EvLog Info "Loading configuration..."; EvProviderGet None;
              EvLoad None; EvValidate None;
              EvLog Info "Applying configuration..."; EvNewService (inl svc)]
       end.
  all: match goal with W : is_Watchable _ = _ |- _ => rewrite W end.
  all: rewrite ?app_nil_r; repeat split; reflexivity.
Qed.

Lemma same_but_service_refl (c : Collector Factories) :
  same_but_service c c.
Proof. exists (service c). now destruct c. Qed.

Lemma same_but_service_set (v : option ServiceRef) (c : Collector Factories) :
  same_but_service c (set_service v c).
Proof. now exists v. Qed.

Lemma same_but_service_trans (c1 c2 c3 : Collector Factories) :
  same_but_service c1 c2 -> same_but_service c2 c3 ->
  same_but_service c1 c3.
Proof.
  intros [v1 H1] [v2 H2]. exists v2. subst. reflexivity.
Qed.

Lemma setupConfigurationComponents_frame (s : Sys) (pp : ParserProvider) :
  parserProvider (col s) = Some pp ->
  exists r s' t,
    setupConfigurationComponents ext s = (Val r, s', t) /\
    forallb off_channel t = true /\
    filter is_reload t = [] /\
    same_but_service (col s) (col s').
Proof.
  intros Hpp.
  pose proof (setupConfigurationComponents_outcome s) as H.
  destruct (setupConfigurationComponents ext s) as [[[[e|]| |] s'] t].
  - destruct H as (_ & Hin & Hcol & _).
    exists (Some e), s', t. repeat split.
    + now apply inert_off_channel.
    + apply inert_filter; auto using inert_not_reload.
    + rewrite Hcol. apply same_but_service_refl.
  - destruct H as (pp' & svc & pre & _ & Ht & Hin & Hcol & _).
    exists None, s', t. subst t. repeat split.
    + rewrite forallb_app. rewrite (inert_off_channel _ Hin).
      simpl. now destruct (is_Watchable pp').
    + rewrite filter_app.
      rewrite (inert_filter is_reload pre) by auto using inert_not_reload.
      simpl. now destruct (is_Watchable pp').
    + rewrite Hcol. apply same_but_service_set.
  - destruct H as (Hnone & _). congruence.
  - contradiction.
Qed.

(** [reloadService] announces itself once, leaves the state channel alone
    and changes at most [col.service]. *)
Ltac frame_done :=
  do 3 eexists;
  split; [reflexivity|];
  split; [simpl; rewrite ?app_nil_r; (assumption || reflexivity)|];
  split; [simpl; rewrite ?app_nil_r; (assumption || reflexivity)|];
  simpl in *;
  eauto using same_but_service_trans, same_but_service_set,
    same_but_service_refl.

Lemma reloadService_frame (s : Sys) (pp : ParserProvider) :
  parserProvider (col s) = Some pp ->
  exists r s' t,
    reloadService ext s = (Val r, s', EvReloadService :: t) /\
    forallb off_channel t = true /\
    filter is_reload t = [] /\
    same_but_service (col s) (col s').
Proof.
  intros Hpp. unfold reloadService. mrun. rewrite Hpp.
  destruct (is_Closeable pp) eqn:Hcl; simpl;
    [destruct (provider_Close ext pp (world s)) as [[e|] w] eqn:Hclose;
     simpl; [frame_done|]|];
    (destruct (service (col s)) as [retiring|] eqn:Hsvc; simpl;
     [match goal with
      | |- context [service_Shutdown ext retiring ?w0] =>
          destruct (service_Shutdown ext retiring w0) as [[e|] w'] eqn:Hdown
      end; simpl; [frame_done|]|]).
  all: match goal with
       | |- context [setupConfigurationComponents ext ?s1] =>
           destruct (@setupConfigurationComponents_frame s1 pp Hpp)
             as (r & s' & t & Hrun & Hoff & Hrel & Hsame);
           rewrite Hrun
       end.
  all: destruct r; simpl; frame_done.
Qed.



(** *** The watch goroutine *)


(** C4: when [reloadService] reaches the retire step with a service
    instance, it sets [col.service] to nil and only then calls [Shutdown] on
    the retiring instance.  If that [Shutdown] fails, [reloadService]
    returns the wrapped error and the collector is left without a service
    instance.  A new instance is assigned only after that [Shutdown] has
    succeeded and right after its own [Start] has succeeded. *)
Theorem reloadService_retires_first
    (s : Sys) (pp : ParserProvider) (retiringService : ServiceRef)
    (w1 w2 : World) (down : option error) :
  parserProvider (col s) = Some pp ->
  service (col s) = Some retiringService ->
  (if is_Closeable pp then provider_Close ext pp (world s)
   else (None, world s)) = (None, w1) ->
  service_Shutdown ext retiringService w1 = (down, w2) ->
  exists r s' post,
    reloadService ext s =
      (Val r, s',
       (EvReloadService ::
          (if is_Closeable pp then [EvProviderClose None] else []))
         ++ [EvAssignService None;
             EvServiceShutdown retiringService down]
         ++ post) /\
    (forall e, down = Some e ->
       r = Some (Errorf "failed to shutdown the retiring config" e) /\
       post = [] /\
       service (col s') = None) /\
    (forall v, In (EvAssignService v) post ->
       down = None /\ r = None /\
       exists svc a b,
         v = Some svc /\
         post = a ++ [EvServiceStart svc None; EvAssignService (Some svc)] ++ b /\
         service (col s') = Some svc) /\
    (forall svc, service (col s') = Some svc ->
       In (EvAssignService (Some svc)) post).
Proof.
  intros Hpp Hsvc Hclose Hdown.
  assert (Hrest :
    forall (s0 : Sys) r0 s' t,
      col s0 = set_service None (col s) ->
      setupConfigurationComponents ext s0 = (r0, s', t) ->
      exists a,
        r0 = Val a /\
        (forall v, In (EvAssignService v) t ->
           a = None /\
           exists svc x y,
             v = Some svc /\
             t = x ++ [EvServiceStart svc None; EvAssignService (Some svc)]
                   ++ y /\
             service (col s') = Some svc) /\
        (forall svc, service (col s') = Some svc ->
           In (EvAssignService (Some svc)) t)).
  { intros s0 r0 s' t Hcol0 Hrun.
    pose proof (setupConfigurationComponents_outcome s0) as H.
    rewrite Hrun in H.
    destruct r0 as [[e|]| |].
    - destruct H as (_ & Hin & Hcol & _).
      exists (Some e). split; [reflexivity|]. split.
      + intros v Hv. now apply inert_no_assignment in Hv.
      + intros svc Hs. rewrite Hcol, Hcol0 in Hs. discriminate.
    - destruct H as (pp' & svc & pre & _ & Ht & Hin & Hcol & _).
      exists None. split; [reflexivity|]. subst t. split.
      + intros v Hv. split; [reflexivity|].
        exists svc, pre, (if is_Watchable pp' then [EvGo] else []).
        split; [|split; [reflexivity|now rewrite Hcol]].
        apply in_app_or in Hv. destruct Hv as [Hv|Hv].
        * now apply inert_no_assignment in Hv.
        * simpl in Hv. destruct Hv as [Hv|[Hv|Hv]].
          -- discriminate.
          -- congruence.
          -- destruct (is_Watchable pp'); simpl in Hv;
               intuition discriminate.
      + intros svc' Hs. rewrite Hcol in Hs. simpl in Hs.
        injection Hs as <-.
        apply in_or_app. right. simpl. auto.
    - destruct H as (Hnone' & _).
      rewrite Hcol0 in Hnone'. simpl in Hnone'. congruence.
    - contradiction. }
  unfold reloadService. mrun. rewrite Hpp.
  revert Hclose.
  destruct (is_Closeable pp) eqn:Hcl; intros Hclose; simpl;
    [rewrite Hclose|injection Hclose as <-]; simpl;
    rewrite Hsvc; simpl; rewrite Hdown; simpl.
  all: destruct down as [e|]; simpl.
  all: try (exists (Some (Errorf "failed to shutdown the retiring config" e));
            eexists; exists []; split; [reflexivity|];
            split; [intros e' He'; injection He' as <-; now repeat split|];
            split; [intros v []|intros svc Hs; discriminate Hs]).
  all: match goal with
       | |- context [setupConfigurationComponents ext ?s0] =>
           destruct (setupConfigurationComponents ext s0)
             as [[r0 s'] t] eqn:Hrun;
           destruct (Hrest s0 r0 s' t eq_refl Hrun)
             as (a & -> & Hassign & Hfinal)
       end.
  all: destruct a as [e|]; simpl; eexists; exists s', (t ++ []);
    (split; [reflexivity|]); rewrite app_nil_r;
    (split; [intros e0 He0; discriminate He0|]);
    (split; [|exact Hfinal]);
    intros v Hv; (split; [reflexivity|]);
    destruct (Hassign v Hv) as (Ha & Hex); (split; [|exact Hex]);
    congruence.
Qed.

(** *** Background activity during the wait *)

Lemma watchTask_frame (watchable pp : ParserProvider) (s : Sys) :
  parserProvider (col s) = Some pp ->
  exists s' t,
    watchTask ext watchable s = (Val tt, s', t) /\
    forallb off_channel t = true /\
    same_but_service (col s) (col s').
Proof.
  intros Hpp. unfold watchTask. mrun.
  destruct (provider_WatchForUpdate ext watchable (world s)) as [err w].
  simpl. destruct (errors_Is_ErrSessionClosed err); simpl.
  - do 2 eexists. repeat split. apply same_but_service_refl.
  - unfold bind.
    destruct (@reloadService_frame (set_world w s) pp Hpp)
      as (r & s' & t & Hrun & Hoff & _ & Hsame).
    rewrite Hrun. simpl.
    do 2 eexists. split; [reflexivity|]. split; [|exact Hsame].
    rewrite app_nil_r. exact Hoff.
Qed.

Lemma run_watch_tasks_frame (k : nat) (pp : ParserProvider) (s : Sys) :
  parserProvider (col s) = Some pp ->
  exists s' t,
    run_watch_tasks ext k s = (Val tt, s', t) /\
    forallb off_channel t = true /\
    same_but_service (col s) (col s').
Proof.
  revert s. induction k as [|k IH]; intros s Hpp; simpl.
  - exists s, []. repeat split. apply same_but_service_refl.
  - destruct (goroutines s) as [|watchable rest] eqn:Hg.
    + exists s, []. repeat split. apply same_but_service_refl.
    + unfold bind.
      destruct (@watchTask_frame watchable pp (set_goroutines rest s) Hpp)
        as (s1 & t1 & Hrun & Hoff & Hsame).
      rewrite Hrun.
      assert (Hpp1 : parserProvider (col s1) = Some pp).
      { destruct Hsame as [v Hv]. rewrite Hv. exact Hpp. }
      destruct (IH s1 Hpp1) as (s2 & t2 & Hrun2 & Hoff2 & Hsame2).
      rewrite Hrun2.
      exists s2, (t1 ++ t2). repeat split.
      * rewrite forallb_app, Hoff, Hoff2. reflexivity.
      * eapply same_but_service_trans; [exact Hsame|exact Hsame2].
Qed.

Lemma Shutdown_frame (s : Sys) :
  logger (col s) <> None ->
  exists s' t,
    Shutdown s = (Val tt, s', t) /\
    forallb off_channel t = true /\
    stateChannel (col s') = stateChannel (col s) /\
    parserProvider (col s') = parserProvider (col s) /\
    service (col s') = service (col s) /\
    world s' = world s.
Proof.
  intros Hlg. unfold Shutdown, recover, logger_Info. mrun. unfold chan_close.
  destruct (logger (col s)) as [lg|] eqn:Hlogger; [|contradiction].
  destruct (stopTestChan (col s)) as [ch|]; simpl.
  - destruct (chan_closed ch); simpl; rewrite ?Hlogger; simpl;
      do 2 eexists; repeat split.
  - rewrite Hlogger. simpl. do 2 eexists; repeat split.
Qed.

(** Channels *)

Lemma send_state_ok (st : State) (s : Sys) (c : chan State) :
  stateChannel (col s) = Some c ->
  chan_closed c = false ->
  Z.of_nat (List.length (chan_buf c)) < chan_cap c ->
  send_state st s =
    (Val tt,
     set_col
       (set_stateChannel
          (Some {| chan_cap := chan_cap c;
                   chan_buf := chan_buf c ++ [st];
                   chan_closed := false |}) (col s)) s,
     [EvSend st]).
Proof.
  intros Hc Hopen Hroom. unfold send_state. mrun.
  unfold chan_send. rewrite Hc, Hopen.
  apply Z.ltb_lt in Hroom. rewrite Hroom. reflexivity.
Qed.

Lemma close_state_ok (s : Sys) (c : chan State) :
  stateChannel (col s) = Some c ->
  chan_closed c = false ->
  close_state s =
    (Val tt,
     set_col
       (set_stateChannel
          (Some {| chan_cap := chan_cap c;
                   chan_buf := chan_buf c;
                   chan_closed := true |}) (col s)) s,
     [EvCloseStateChannel]).
Proof.
  intros Hc Hopen. unfold close_state. mrun.
  unfold chan_close. rewrite Hc, Hopen. reflexivity.
Qed.

(** *** The wait for a shutdown event *)


(** Without any event the primary flow never leaves the [select]. *)
Lemma select_shutdown_event_waits
    (s : Sys) (pp : ParserProvider) (k : nat) (w : World) :
  parserProvider (col s) = Some pp ->
  select_wait ext (world s) = ((k, None), w) ->
  exists s' t, select_shutdown_event ext s = (Block, s', t).
Proof.
  intros Hpp Hsel. unfold select_shutdown_event. mrun. rewrite Hsel. simpl.
  destruct (@run_watch_tasks_frame k pp (set_world w s) Hpp)
    as (s1 & t1 & Hrun & _).
  rewrite Hrun. simpl. now do 2 eexists.
Qed.


(** *** The shutdown sequence *)

Lemma execute_shutdown_run
    (ballast : option (list Byte.byte)) (s : Sys) (c : chan State)
    (cerr serr terr : option error) (w1 w2 w3 : World) :
  stateChannel (col s) = Some c ->
  chan_closed c = false ->
  Z.of_nat (List.length (chan_buf c)) < chan_cap c ->
  match parserProvider (col s) with
  | Some closable =>
      if is_Closeable closable
      then provider_Close ext closable (world s)
      else (None, world s)
  | None => (None, world s)
  end = (cerr, w1) ->
  match service (col s) with
  | Some svc => service_Shutdown ext svc w1
  | None => (None, w1)
  end = (serr, w2) ->
  telemetry_shutdown ext w2 = (terr, w3) ->
  exists s' pre,
    execute_shutdown ext ballast s =
      (Val (Combine
              (recorded "failed to close config" cerr
                 ++ recorded "failed to shutdown service" serr
                 ++ recorded "failed to shutdown application telemetry" terr)),
       s', pre ++ [EvSend Closed; EvCloseStateChannel]) /\
    forallb off_channel pre = true /\
    filter is_teardown pre =
      EvKeepAlive :: teardown_steps (col s) cerr serr terr /\
    col s' =
      set_stateChannel
        (Some {| chan_cap := chan_cap c;
                 chan_buf := chan_buf c ++ [Closed];
                 chan_closed := true |}) (col s) /\
    world s' = w3.
Proof.
  intros Hc Hopen Hroom Hclose Hdown Htel.
  unfold execute_shutdown, teardown_steps. mrun.
  revert Hclose Hdown.
  destruct (parserProvider (col s)) as [closable|];
    [destruct (is_Closeable closable)|];
    intros Hclose; simpl;
    first [injection Hclose as <- <-|rewrite Hclose]; simpl.
  all: try destruct cerr as [e1|]; simpl.
  all: destruct (service (col s)) as [svc|];
    intros Hdown; simpl;
    first [injection Hdown as <- <-|rewrite Hdown]; simpl.
  all: try destruct serr as [e2|]; simpl.
  all: rewrite Htel; simpl.
  all: destruct terr as [e3|]; simpl.
  all: match goal with
       | |- context [send_state Closed ?s1] =>
           rewrite (@send_state_ok Closed s1 c Hc Hopen Hroom)
       end; simpl.
  all: unfold close_state; mrun.
  all: match goal with
       | |- exists s' pre, (_, ?st, ?t) = _ /\ _ =>
           exists st, (removelast (removelast t))
       end; simpl; repeat split.
Qed.

(** C2: in the shutdown sequence of [execute] every step runs, whatever
    the earlier ones answered: [Close] on a closeable provider, [Shutdown] on
    the current service instance when there is one, then the shutdown of
    telemetry.  Each failure is recorded, and the value returned is the
    combination of the recorded errors: it reports every one of them, both
    the provider's and the service's when both fail, and it is nil when no
    step fails. *)
Theorem execute_shutdown_every_step
    (ballast : option (list Byte.byte)) (s : Sys) (c : chan State)
    (cerr serr terr : option error) (w1 w2 w3 : World) :
  stateChannel (col s) = Some c ->
  chan_closed c = false ->
  Z.of_nat (List.length (chan_buf c)) < chan_cap c ->
  match parserProvider (col s) with
  | Some closable =>
      if is_Closeable closable
      then provider_Close ext closable (world s)
      else (None, world s)
  | None => (None, world s)
  end = (cerr, w1) ->
  match service (col s) with
  | Some svc => service_Shutdown ext svc w1
  | None => (None, w1)
  end = (serr, w2) ->
  telemetry_shutdown ext w2 = (terr, w3) ->
  let errs :=
    recorded "failed to close config" cerr
      ++ recorded "failed to shutdown service" serr
      ++ recorded "failed to shutdown application telemetry" terr in
  exists s' t,
    execute_shutdown ext ballast s = (Val (Combine errs), s', t) /\
    filter is_teardown t =
      EvKeepAlive :: teardown_steps (col s) cerr serr terr /\
    (forall e, In e errs -> reports (Combine errs) e) /\
    (forall e1 e2, cerr = Some e1 -> serr = Some e2 ->
       reports (Combine errs) (Errorf "failed to close config" e1) /\
       reports (Combine errs) (Errorf "failed to shutdown service" e2)) /\
    (cerr = None -> serr = None -> terr = None -> Combine errs = None).
Proof.
  intros Hc Hopen Hroom Hclose Hdown Htel errs.
  destruct (execute_shutdown_run ballast s Hc Hopen Hroom Hclose Hdown Htel)
    as (s' & pre & Hrun & _ & Hsteps & _).
  assert (Hreports : forall e, In e errs -> reports (Combine errs) e).
  { intros e He. unfold Combine.
    destruct errs as [|e0 rest]; [contradiction|exact He]. }
  exists s', (pre ++ [EvSend Closed; EvCloseStateChannel]).
  split; [exact Hrun|]. split; [|split; [exact Hreports|split]].
  - rewrite filter_app, Hsteps. simpl. now rewrite app_nil_r.
  - intros e1 e2 -> ->. split; apply Hreports; unfold errs; simpl; auto.
  - intros -> -> ->. reflexivity.
Qed.

(** *** execute *)

Lemma createMemoryBallast_same_world
    (s s0 : Sys) (bb : option (list Byte.byte) * Z) (tb : list Event) :
  world s0 = world s ->
  createMemoryBallast ext s = (Val bb, s, tb) ->
  createMemoryBallast ext s0 = (Val bb, s0, tb) /\
  forallb inert tb = true.
Proof.
  intros Hw. unfold createMemoryBallast. rewrite Hw.
  destruct (0 <? builder_MemBallastSize ext (world s)); mrun.
  - destruct (make_bytes _) as [ballast|msg|]; simpl;
      intros H; [injection H as <- <-; now split|discriminate H..].
  - intros H; injection H as <- <-; now split.
Qed.

Lemma setupTelemetry_frame
    (n : Z) (s s' : Sys) (r : Res (option error)) (t : list Event) :
  setupTelemetry ext n s = (r, s', t) ->
  (exists v, r = Val v) /\
  col s' = col s /\ goroutines s' = goroutines s /\
  forallb inert t = true.
Proof.
  unfold setupTelemetry. mrun.
  destruct (telemetry_init ext (asyncErrorChannel (col s)) n
              (logger (col s)) (world s)) as [[e|] w];
    simpl; intros H; injection H as <- <- <-; repeat split; eauto.
Qed.

(** The run of [execute] up to the point where the setup starts. *)
Lemma execute_enters
    (s : Sys) (c : chan State) (bb : option (list Byte.byte) * Z)
    (tb : list Event) :
  stateChannel (col s) = Some c ->
  chan_closed c = false ->
  Z.of_nat (List.length (chan_buf c)) < chan_cap c ->
  createMemoryBallast ext s = (Val bb, s, tb) ->
  exists t0,
    sent t0 = [Starting] /\
    filter is_close t0 = [] /\
    filter is_teardown t0 = [] /\
    filter is_assign t0 = [] /\
    execute ext s =
      match setupTelemetry ext (snd bb) (entered s c) with
      | (Val (Some err), s1, t1) => (Val (Some err), s1, t0 ++ t1)
      | (Val None, s1, t1) =>
          match setupConfigurationComponents ext s1 with
          | (Val (Some err), s2, t2) => (Val (Some err), s2, t0 ++ t1 ++ t2)
          | (Val None, s2, t2) =>
              match runAndWaitForShutdownEvent ext s2 with
              | (Val _, s3, t3) =>
                  match execute_shutdown ext (fst bb) s3 with
                  | (r, s4, t4) => (r, s4, t0 ++ t1 ++ t2 ++ t3 ++ t4)
                  end
              | (Panic msg, s3, t3) => (Panic msg, s3, t0 ++ t1 ++ t2 ++ t3)
              | (Block, s3, t3) => (Block, s3, t0 ++ t1 ++ t2 ++ t3)
              end
          | (Panic msg, s2, t2) => (Panic msg, s2, t0 ++ t1 ++ t2)
          | (Block, s2, t2) => (Block, s2, t0 ++ t1 ++ t2)
          end
      | (Panic msg, s1, t1) => (Panic msg, s1, t0 ++ t1)
      | (Block, s1, t1) => (Block, s1, t0 ++ t1)
      end.
Proof.
  intros Hc Hopen Hroom Hb.
  exists ([EvLog Info
             (String.append "Starting "
                (String.append (component.BuildInfo_Command (info (col s)))
                   "..."));
           EvSend Starting] ++ tb).
  unfold execute. mrun.
  rewrite (@send_state_ok Starting s c Hc Hopen Hroom). simpl.
  match goal with
  | |- context [createMemoryBallast ext ?s0] =>
      destruct (@createMemoryBallast_same_world s s0 bb tb eq_refl Hb)
        as (Hb0 & Hin)
  end.
  rewrite Hb0. simpl.
  rewrite (off_channel_sent _ (inert_off_channel _ Hin)).
  rewrite (off_channel_close _ (inert_off_channel _ Hin)).
  rewrite (inert_filter is_teardown tb) by auto using inert_not_teardown.
  rewrite (inert_filter is_assign tb) by auto using inert_not_assign.
  repeat (split; [reflexivity|]).
  match goal with
  | |- context [setupTelemetry ext (snd bb) ?s0] =>
      change s0 with (entered s c)
  end.
  destruct (setupTelemetry ext (snd bb) (entered s c))
    as [[[[e|]| |] s1] t1]; simpl;
    [|destruct (setupConfigurationComponents ext s1)
        as [[[[e|]| |] s2] t2]; simpl;
      [|destruct (runAndWaitForShutdownEvent ext s2)
          as [[[[]| |] s3] t3]; simpl;
        [destruct (execute_shutdown ext (fst bb) s3) as [[r s4] t4]| |]
       | |]
     | |];
    rewrite ?app_nil_r, <- ?app_assoc; reflexivity.
Qed.


(** C3: when the setup fails before Running is sent (the initialisation of
    telemetry fails, or the load, validation or start of the configuration
    components fails), [execute] returns that error at once; Starting is
    the only value sent on the state channel, and the channel is left
    open. *)
Theorem execute_setup_failure
    (s s' : Sys) (c : chan State)
    (ballast : option (list Byte.byte)) (bytes : Z)
    (tb : list Event) (e : error) :
  stateChannel (col s) = Some c ->
  chan_closed c = false ->
  Z.of_nat (List.length (chan_buf c)) < chan_cap c ->
  createMemoryBallast ext s = (Val (ballast, bytes), s, tb) ->
  ((exists t1,
       setupTelemetry ext bytes (entered s c) = (Val (Some e), s', t1)) \/
   (exists s1 t1 t2,
       setupTelemetry ext bytes (entered s c) = (Val None, s1, t1) /\
       setupConfigurationComponents ext s1 = (Val (Some e), s', t2))) ->
  exists t,
    execute ext s = (Val (Some e), s', t) /\
    sent t = [Starting] /\
    filter is_close t = [] /\
    stateChannel (col s') =
      Some {| chan_cap := chan_cap c;
              chan_buf := chan_buf c ++ [Starting];
              chan_closed := false |}.
Proof.
  intros Hc Hopen Hroom Hb Hfail.
  destruct (@execute_enters s c (ballast, bytes) tb Hc Hopen Hroom Hb)
    as (t0 & Hsent0 & Hcl0 & _ & _ & Hexec).
  rewrite Hexec. simpl snd. simpl fst.
  destruct Hfail as [(t1 & Htel)|(s1 & t1 & t2 & Htel & Hsetup)].
  - rewrite Htel.
    destruct (setupTelemetry_frame _ _ Htel) as (_ & Hcol1 & _ & Hin1).
    pose proof (inert_off_channel _ Hin1) as Hoff1.
    eexists. split; [reflexivity|].
    rewrite sent_app, filter_app, Hsent0, Hcl0.
    rewrite (off_channel_sent _ Hoff1), (off_channel_close _ Hoff1).
    repeat split. now rewrite Hcol1.
  - rewrite Htel, Hsetup.
    destruct (setupTelemetry_frame _ _ Htel) as (_ & Hcol1 & _ & Hin1).
    pose proof (inert_off_channel _ Hin1) as Hoff1.
    pose proof (setupConfigurationComponents_outcome s1) as Hout.
    rewrite Hsetup in Hout.
    destruct Hout as (_ & Hin2 & Hcol2 & _).
    pose proof (inert_off_channel _ Hin2) as Hoff2.
    eexists. split; [reflexivity|].
    rewrite !sent_app, !filter_app, Hsent0, Hcl0.
    rewrite (off_channel_sent _ Hoff1), (off_channel_close _ Hoff1).
    rewrite (off_channel_sent _ Hoff2), (off_channel_close _ Hoff2).
    repeat split. now rewrite Hcol2, Hcol1.
Qed.

(** C8: when the setup fails after telemetry was initialised (the load,
    validation or start of the configuration components fails), [execute]
    returns the error and tears nothing down: telemetry is not shut down,
    the ballast is not released by a shutdown step, the provider is not
    closed, no service is shut down, and [col.service] is not assigned: it
    is what it was, nil for a collector that had no service. *)
Theorem execute_setup_failure_no_teardown
    (s s1 s' : Sys) (c : chan State)
    (ballast : option (list Byte.byte)) (bytes : Z)
    (tb t1 t2 : list Event) (e : error) :
  stateChannel (col s) = Some c ->
  chan_closed c = false ->
  Z.of_nat (List.length (chan_buf c)) < chan_cap c ->
  createMemoryBallast ext s = (Val (ballast, bytes), s, tb) ->
  setupTelemetry ext bytes (entered s c) = (Val None, s1, t1) ->
  setupConfigurationComponents ext s1 = (Val (Some e), s', t2) ->
  exists t,
    execute ext s = (Val (Some e), s', t) /\
    filter is_teardown t = [] /\
    filter is_assign t = [] /\
    service (col s') = service (col s) /\
    (service (col s) = None -> service (col s') = None).
Proof.
  intros Hc Hopen Hroom Hb Htel Hsetup.
  destruct (@execute_enters s c (ballast, bytes) tb Hc Hopen Hroom Hb)
    as (t0 & _ & _ & Htd0 & Has0 & Hexec).
  rewrite Hexec. simpl snd. simpl fst. rewrite Htel, Hsetup.
  destruct (setupTelemetry_frame _ _ Htel) as (_ & Hcol1 & _ & Hin1).
  pose proof (setupConfigurationComponents_outcome s1) as Hout.
  rewrite Hsetup in Hout.
  destruct Hout as (_ & Hin2 & Hcol2 & _).
  assert (Hsvc : service (col s') = service (col s)).
  { now rewrite Hcol2, Hcol1. }
  eexists. split; [reflexivity|].
  rewrite !filter_app, Htd0, Has0.
  rewrite (inert_filter is_teardown t1) by auto using inert_not_teardown.
  rewrite (inert_filter is_teardown t2) by auto using inert_not_teardown.
  rewrite (inert_filter is_assign t1) by auto using inert_not_assign.
  rewrite (inert_filter is_assign t2) by auto using inert_not_assign.
  repeat split; [exact Hsvc|]. intros Hnil. now rewrite Hsvc.
Qed.

(** ** Further properties of application.go *)

(** *** createMemoryBallast, Shutdown, RunE *)

(** X1: whenever [createMemoryBallast] returns, the size it reports is the
    length of the buffer it returns: a buffer comes only with a positive
    configured size and holds N * 1,048,576 modulo 2^64 bytes; with a size
    of zero or less there is no buffer and the size reported is 0.  The
    collector is left as it was. *)
Theorem createMemoryBallast_size_is_length
    (s s' : Sys) (ballast : option (list Byte.byte)) (n : Z)
    (t : list Event) :
  createMemoryBallast ext s = (Val (ballast, n), s', t) ->
  s' = s /\
  match ballast with
  | Some buf =>
      0 < builder_MemBallastSize ext (world s) /\
      Z.of_nat (List.length buf) = n /\
      n = (builder_MemBallastSize ext (world s) * 1048576) mod 2 ^ 64
  | None => builder_MemBallastSize ext (world s) <= 0 /\ n = 0
  end.
Proof.
  unfold createMemoryBallast.
  destruct (0 <? builder_MemBallastSize ext (world s)) eqn:Hpos.
  - rewrite ballast_bytes_mod. mrun.
    destruct (make_bytes _ _) as [buf|msg|] eqn:Hmake; simpl;
      intros H; [|discriminate H..].
    injection H as <- <- <- _. split; [reflexivity|].
    apply Z.ltb_lt in Hpos. split; [exact Hpos|]. split; [|reflexivity].
    refine (proj1 (make_bytes_val _ _ Hmake)).
    apply Z.mod_pos_bound. lia.
  - mrun. intros H. injection H as <- <- <- _.
    apply Z.ltb_ge in Hpos. now repeat split.
Qed.

(** X2: two calls of [Shutdown] in a row on an open stop channel, on a
    collector whose logger is set: the first closes the channel without a
    word, the second changes nothing more and only logs that the channel is
    already closed. *)
Theorem Shutdown_twice (s : Sys) (ch : chan unit) :
  stopTestChan (col s) = Some ch ->
  chan_closed ch = false ->
  logger (col s) <> None ->
  exists s1,
    Shutdown s = (Val tt, s1, []) /\
    stopTestChan (col s1) =
      Some {| chan_cap := chan_cap ch;
              chan_buf := chan_buf ch;
              chan_closed := true |} /\
    bind (@Shutdown Factories World) (fun _ => @Shutdown Factories World) s =
      (Val tt, s1, [EvLog Info "stopTestChan already closed"]).
Proof.
  intros Hch Hopen Hlg.
  destruct (logger (col s)) as [lg|] eqn:Hlogger; [|contradiction].
  eexists. split; [apply (Shutdown_closes s Hch Hopen)|].
  split; [reflexivity|].
  unfold bind. rewrite (Shutdown_closes s Hch Hopen).
  erewrite Shutdown_on_closed; [reflexivity|reflexivity|reflexivity|].
  simpl. exact Hlogger.
Qed.

(** X3: once [RunE] has set the logger, [Shutdown] returns normally in every
    state of the collector, the stop channel being nil, open or closed; it
    changes nothing but [col.stopTestChan], and on a nil stop channel (before
    [runAndWaitForShutdownEvent] has made it) it changes nothing at all. *)
Theorem Shutdown_only_stop_channel (s : Sys) :
  logger (col s) <> None ->
  exists s' t,
    Shutdown s = (Val tt, s', t) /\
    world s' = world s /\
    goroutines s' = goroutines s /\
    (exists v, col s' = set_stopTestChan v (col s)) /\
    (stopTestChan (col s) = None ->
     s' = s /\ t = [EvLog Info "stopTestChan already closed"]).
Proof.
  intros Hlg. unfold Shutdown, recover, logger_Info. mrun. unfold chan_close.
  destruct (logger (col s)) as [lg|] eqn:Hlogger; [|contradiction].
  destruct (stopTestChan (col s)) as [ch|] eqn:Hch; simpl.
  - destruct (chan_closed ch) eqn:Hcl; simpl; rewrite ?Hlogger; simpl;
      do 2 eexists; (split; [reflexivity|]); repeat split;
      try discriminate.
    + exists (Some ch). rewrite <- Hch. now destruct (col s).
    + eexists. reflexivity.
  - rewrite Hlogger. simpl.
    do 2 eexists. split; [reflexivity|]. repeat split.
    exists None. rewrite <- Hch. now destruct (col s).
Qed.

(** X4: [RunE] starts [execute] only with a logger: when [newLogger] fails it
    returns the wrapped error, nothing is sent on the state channel (not even
    Starting) and no collaborator is called; when [newLogger] succeeds the run
    is the run of [execute] on the collector with that logger. *)
Theorem RunE_needs_logger (opts : list LoggingOption) (s : Sys) :
  (forall e w,
      newLogger ext opts (world s) = (inr e, w) ->
      exists s',
        RunE ext opts s =
          (Val (Some (Errorf "failed to get logger" e)), s', []) /\
        logger (col s') = None /\
        stateChannel (col s') = stateChannel (col s) /\
        world s' = w) /\
  (forall lg w,
      newLogger ext opts (world s) = (inl lg, w) ->
      RunE ext opts s =
        execute ext (set_col (set_logger (Some lg) (col s)) (set_world w s))).
Proof.
  split.
  - intros e w Hlog. unfold RunE. mrun. rewrite Hlog. simpl.
    eexists. split; [reflexivity|]. now repeat split.
  - intros lg w Hlog. unfold RunE. mrun. rewrite Hlog. simpl.
    match goal with
    | |- context [execute ext ?s0] =>
        change s0
          with (set_col (set_logger (Some lg) (col s)) (set_world w s));
        destruct (execute ext
                    (set_col (set_logger (Some lg) (col s)) (set_world w s)))
          as [[r s2] t2]
    end.
    reflexivity.
Qed.

(** X5: [execute] does nothing before Starting is sent.  On a collector whose
    state channel is closed (one that has completed a run) it panics at that
    first send; on a state channel that is full it stays blocked there.  In
    both cases the collector and the world are untouched: no ballast, no
    telemetry, no configuration. *)
Theorem execute_needs_state_channel (s : Sys) (c : chan State) :
  stateChannel (col s) = Some c ->
  let entry :=
    [EvLog Info
       (String.append "Starting "
          (String.append (component.BuildInfo_Command (info (col s))) "..."))] in
  (chan_closed c = true ->
   execute ext s = (Panic "send on closed channel", s, entry)) /\
  (chan_closed c = false ->
   chan_cap c <= Z.of_nat (List.length (chan_buf c)) ->
   execute ext s = (Block, s, entry)).
Proof.
  intros Hc entry. split.
  - intros Hcl. unfold execute, send_state. mrun. unfold chan_send.
    rewrite Hc, Hcl. reflexivity.
  - intros Hopen Hfull. unfold execute, send_state. mrun. unfold chan_send.
    rewrite Hc, Hopen. apply Z.ltb_ge in Hfull. rewrite Hfull. reflexivity.
Qed.

(** *** setupConfigurationComponents, step by step *)

Ltac in_trace :=
  repeat match goal with
         | H : False |- _ => destruct H
         | H : _ \/ _ |- _ => destruct H
         | H : @eq Event _ _ |- _ => first [discriminate H|injection H as <-]
         | H : @eq Event _ _ |- _ => injection H as <- <-
         end.

Ltac last_event :=
  match goal with
  | |- exists pre, ?t = pre ++ [_] => exists (removelast t); reflexivity
  end.

(** X6: in [setupConfigurationComponents] the step that fails decides the
    error and is the last thing done: a failure of [Get], of the load or of
    the validation is returned wrapped with its own message; a failure of
    [newService] or of [Start] is returned as it is. *)
Theorem setupConfigurationComponents_failing_step
    (s s' : Sys) (r : Res (option error)) (t : list Event) :
  setupConfigurationComponents ext s = (r, s', t) ->
  (forall e, In (EvProviderGet (Some e)) t ->
     r = Val (Some (Errorf "cannot load configuration's parser" e)) /\
     exists pre, t = pre ++ [EvProviderGet (Some e)]) /\
  (forall e, In (EvLoad (Some e)) t ->
     r = Val (Some (Errorf "cannot load configuration" e)) /\
     exists pre, t = pre ++ [EvLoad (Some e)]) /\
  (forall e, In (EvValidate (Some e)) t ->
     r = Val (Some (Errorf "invalid configuration" e)) /\
     exists pre, t = pre ++ [EvValidate (Some e)]) /\
  (forall e, In (EvNewService (inr e)) t ->
     r = Val (Some e) /\
     exists pre, t = pre ++ [EvNewService (inr e)]) /\
  (forall svc e, In (EvServiceStart svc (Some e)) t ->
     r = Val (Some e) /\
     exists pre, t = pre ++ [EvServiceStart svc (Some e)]).
Proof.
  unfold setupConfigurationComponents. mrun.
  destruct (parserProvider (col s)) as [pp|]; simpl.
  - repeat mcase; intros H; injection H as <- <- <-;
      repeat split; intros; simpl in *; in_trace; subst;
      solve [reflexivity|last_event].
  - intros H; injection H as <- <- <-.
    repeat split; intros; simpl in *; in_trace.
Qed.

(** X7: an error returned by [setupConfigurationComponents] always comes
    from one of its five steps, the one recorded last; the collector then
    has the service it had, no goroutine was started, and no instance was
    started successfully. *)
Theorem setupConfigurationComponents_error_origin
    (s s' : Sys) (err : error) (t : list Event) :
  setupConfigurationComponents ext s = (Val (Some err), s', t) ->
  col s' = col s /\
  goroutines s' = goroutines s /\
  (forall svc, ~ In (EvServiceStart svc None) t) /\
  exists pre,
    (exists e,
        t = pre ++ [EvProviderGet (Some e)] /\
        err = Errorf "cannot load configuration's parser" e) \/
    (exists e,
        t = pre ++ [EvLoad (Some e)] /\
        err = Errorf "cannot load configuration" e) \/
    (exists e,
        t = pre ++ [EvValidate (Some e)] /\
        err = Errorf "invalid configuration" e) \/
    t = pre ++ [EvNewService (inr err)] \/
    (exists svc, t = pre ++ [EvServiceStart svc (Some err)]).
Proof.
  unfold setupConfigurationComponents. mrun.
  destruct (parserProvider (col s)) as [pp|]; simpl; [|discriminate].
  repeat mcase; intros H; try discriminate H; injection H as <- <- <-;
    (split; [reflexivity|]); (split; [reflexivity|]);
    (split; [intros svc Hin; simpl in Hin; in_trace|]).
  all: match goal with
       | |- exists pre, (exists e, ?t = _ /\ _) \/ _ => exists (removelast t)
       end.
  all: first
    [ left; eexists; split; reflexivity
    | right; left; eexists; split; reflexivity
    | do 2 right; left; eexists; split; reflexivity
    | do 3 right; left; reflexivity
    | do 4 right; eexists; reflexivity ].
Qed.

(** *** What the traces are made of *)

Lemma setupConfigurationComponents_events (s : Sys) :
  forallb setup_event (snd (setupConfigurationComponents ext s)) = true.
Proof.
  unfold setupConfigurationComponents. mrun.
  destruct (parserProvider (col s)) as [pp|]; simpl; [|reflexivity].
  repeat mcase; reflexivity.
Qed.

(** A call of [reloadService] closes a closeable provider once and only
    once, and leaves nothing but background events. *)
Lemma reloadService_events (s : Sys) (pp : ParserProvider) :
  parserProvider (col s) = Some pp ->
  forallb background (snd (reloadService ext s)) = true /\
  count is_reload (snd (reloadService ext s)) = 1%nat /\
  count is_provider_close (snd (reloadService ext s)) =
    (if is_Closeable pp then 1 else 0)%nat.
Proof.
  intros Hpp. unfold reloadService. mrun. rewrite Hpp.
  destruct (is_Closeable pp); simpl;
    [destruct (provider_Close ext pp (world s)) as [[e|] w]; simpl|].
  all: repeat first
    [ match goal with
      | |- context [match service ?c with _ => _ end] =>
          destruct (service c); simpl
      end
    | match goal with
      | |- context [service_Shutdown ext ?r ?w0] =>
          destruct (service_Shutdown ext r w0) as [[?|] ?]; simpl
      end
    | match goal with
      | |- context [setupConfigurationComponents ext ?s1] =>
          pose proof (setupConfigurationComponents_events s1) as Hev;
          destruct (setupConfigurationComponents ext s1)
            as [[[[?|]| |] ?] ?]; simpl in *
      end ].
  all: rewrite ?app_nil_r.
  all: repeat rewrite count_cons; simpl.
  all: try (rewrite (count_none setup_event is_reload) by
              (assumption || (intros []; simpl; congruence)));
       try (rewrite (count_none setup_event is_provider_close) by
              (assumption || (intros []; simpl; congruence))).
  all: repeat split; try reflexivity.
  all: apply (forallb_weaken setup_event); auto using setup_event_background.
Qed.

Lemma watchTask_events (watchable pp : ParserProvider) (s : Sys) :
  parserProvider (col s) = Some pp ->
  forallb background (snd (watchTask ext watchable s)) = true /\
  count is_provider_close (snd (watchTask ext watchable s)) =
    (if is_Closeable pp
     then count is_reload (snd (watchTask ext watchable s)) else 0)%nat.
Proof.
  intros Hpp. unfold watchTask. mrun.
  destruct (provider_WatchForUpdate ext watchable (world s)) as [err w].
  simpl. destruct (errors_Is_ErrSessionClosed err); simpl.
  - split; [reflexivity|]. now destruct (is_Closeable pp).
  - unfold bind.
    destruct (@reloadService_events (set_world w s) pp Hpp)
      as (Hbg & Hrel & Hcl).
    destruct (reloadService ext (set_world w s)) as [[[a|msg|] s'] t];
      simpl in *; rewrite ?app_nil_r; rewrite !count_cons; simpl;
      rewrite Hrel, Hcl; (split; [exact Hbg|]);
      now destruct (is_Closeable pp).
Qed.

Lemma run_watch_tasks_events (k : nat) (pp : ParserProvider) (s : Sys) :
  parserProvider (col s) = Some pp ->
  forallb background (snd (run_watch_tasks ext k s)) = true /\
  count is_provider_close (snd (run_watch_tasks ext k s)) =
    (if is_Closeable pp
     then count is_reload (snd (run_watch_tasks ext k s)) else 0)%nat.
Proof.
  revert s. induction k as [|k IH]; intros s Hpp; simpl.
  - split; [reflexivity|]. now destruct (is_Closeable pp).
  - destruct (goroutines s) as [|watchable rest].
    + simpl. split; [reflexivity|]. now destruct (is_Closeable pp).
    + unfold bind.
      destruct (@watchTask_events watchable pp (set_goroutines rest s) Hpp)
        as (Hbg1 & Hcl1).
      destruct (@watchTask_frame watchable pp (set_goroutines rest s) Hpp)
        as (s1 & t1 & Hrun & _ & [v Hv]).
      rewrite Hrun in *. simpl in Hbg1, Hcl1.
      assert (Hpp1 : parserProvider (col s1) = Some pp).
      { rewrite Hv. exact Hpp. }
      destruct (IH s1 Hpp1) as (Hbg2 & Hcl2).
      destruct (run_watch_tasks ext k s1) as [[r2 s2] t2]. simpl in *.
      rewrite forallb_app, Hbg1, Hbg2, !count_app, Hcl1, Hcl2.
      split; [reflexivity|]. now destruct (is_Closeable pp).
Qed.

(** With no watch goroutine pending nothing happens during the wait. *)
Lemma run_watch_tasks_idle (k : nat) (s : Sys) :
  goroutines s = [] -> run_watch_tasks ext k s = (Val tt, s, []).
Proof. intros Hg. destruct k; simpl; [reflexivity|now rewrite Hg]. Qed.

(** *** Pending watch goroutines *)

Lemma reloadService_goroutines (s : Sys) (pp : ParserProvider) :
  parserProvider (col s) = Some pp ->
  (List.length (goroutines (snd (fst (reloadService ext s))))
   <= List.length (goroutines s) + (if is_Watchable pp then 1 else 0))%nat.
Proof.
  intros Hpp. unfold reloadService. mrun. rewrite Hpp.
  destruct (is_Closeable pp); simpl;
    [destruct (provider_Close ext pp (world s)) as [[e|] w]; simpl|].
  all: repeat first
    [ match goal with
      | |- context [match service ?c with _ => _ end] =>
          destruct (service c); simpl
      end
    | match goal with
      | |- context [service_Shutdown ext ?r ?w0] =>
          destruct (service_Shutdown ext r w0) as [[?|] ?]; simpl
      end
    | match goal with
      | |- context [setupConfigurationComponents ext ?s1] =>
          pose proof (setupConfigurationComponents_outcome s1) as Hout;
          destruct (setupConfigurationComponents ext s1)
            as [[[[?|]| |] ?] ?]; simpl in *
      end ].
  all: try lia.
  all: try contradiction.
  all: try (destruct Hout as (_ & _ & _ & ->); lia).
  all: try (destruct Hout as (pp' & svc & pre & Hpp' & _ & _ & _ & ->);
            rewrite Hpp in Hpp'; injection Hpp' as <-;
            rewrite length_app; destruct (is_Watchable pp); simpl; lia).
  all: destruct Hout as (Hnone & _); congruence.
Qed.

(** X8: during the wait the number of pending watch goroutines never grows:
    a goroutine whose [WatchForUpdate] returns is gone, and the reload it
    triggers starts at most one new goroutine. *)
Theorem run_watch_tasks_goroutines (k : nat) (pp : ParserProvider) (s : Sys) :
  parserProvider (col s) = Some pp ->
  (List.length (goroutines (snd (fst (run_watch_tasks ext k s))))
   <= List.length (goroutines s))%nat.
Proof.
  revert s. induction k as [|k IH]; intros s Hpp; simpl.
  - lia.
  - destruct (goroutines s) as [|watchable rest] eqn:Hg.
    + simpl. rewrite Hg. simpl. lia.
    + unfold bind.
      assert (Hstep :
        (List.length
           (goroutines
              (snd (fst (watchTask ext watchable (set_goroutines rest s)))))
         <= List.length rest + (if is_Watchable pp then 1 else 0))%nat).
      { unfold watchTask. mrun.
        destruct (provider_WatchForUpdate ext watchable (world s)) as [err w].
        simpl. destruct (errors_Is_ErrSessionClosed err); simpl; [lia|].
        unfold bind.
        pose proof (@reloadService_goroutines
                      (set_world w (set_goroutines rest s)) pp Hpp) as Hr.
        destruct (reloadService ext (set_world w (set_goroutines rest s)))
          as [[[a|msg|] s'] t]; simpl in *; exact Hr. }
      destruct (@watchTask_frame watchable pp (set_goroutines rest s) Hpp)
        as (s1 & t1 & Hrun & _ & [v Hv]).
      rewrite Hrun in *. simpl in Hstep.
      assert (Hpp1 : parserProvider (col s1) = Some pp).
      { rewrite Hv. exact Hpp. }
      pose proof (IH s1 Hpp1) as Hle.
      destruct (run_watch_tasks ext k s1) as [[r2 s2] t2]. simpl in *.
      destruct (is_Watchable pp); lia.
Qed.

(** *** reloadService: what is left after it returns *)

(** X9: when [reloadService] returns nil the collector has a service
    instance, one whose [Start] succeeded during this reload.  When it
    returns an error, either the provider's [Close] failed and the service
    is the one it was, or the collector is left without a service
    instance. *)
Theorem reloadService_service_after
    (s s' : Sys) (pp : ParserProvider) (r : option error) (t : list Event) :
  parserProvider (col s) = Some pp ->
  reloadService ext s = (Val r, s', t) ->
  (r = None ->
   exists svc,
     service (col s') = Some svc /\ In (EvServiceStart svc None) t) /\
  (forall e, r = Some e ->
     (service (col s') = service (col s) /\
      exists e0, e = Errorf "failed close current config provider" e0) \/
     service (col s') = None).
Proof.
  intros Hpp. unfold reloadService. mrun. rewrite Hpp.
  destruct (is_Closeable pp); simpl;
    [destruct (provider_Close ext pp (world s)) as [[e|] w]; simpl|].
  all: repeat first
    [ match goal with
      | |- context [match service ?c with _ => _ end] =>
          destruct (service c) eqn:?; simpl
      end
    | match goal with
      | |- context [service_Shutdown ext ?r ?w0] =>
          destruct (service_Shutdown ext r w0) as [[?|] ?]; simpl
      end
    | match goal with
      | |- context [setupConfigurationComponents ext ?s1] =>
          pose proof (setupConfigurationComponents_outcome s1) as Hout;
          destruct (setupConfigurationComponents ext s1)
            as [[[[?|]| |] ?] ?]; simpl in *
      end ].
  all: intros H; try discriminate H; injection H as <- <- <-.
  all: split; [intros Hr; try discriminate Hr|intros e' He'; try discriminate He'].
  all: try (left; split; [reflexivity|eexists; injection He' as <-; reflexivity]).
  all: try (right; reflexivity).
  all: try (destruct Hout as (_ & _ & -> & _); right; simpl; assumption || reflexivity).
  all: destruct Hout as (pp' & svc & pre & _ & -> & _ & -> & _);
    exists svc; (split; [reflexivity|]);
    rewrite ?app_nil_r; simpl; repeat right;
    apply in_or_app; right; simpl; auto.
Qed.

(** *** The anatomy of a run *)

Lemma createMemoryBallast_trace
    (s s' : Sys) (bb : option (list Byte.byte) * Z) (tb : list Event) :
  createMemoryBallast ext s = (Val bb, s', tb) ->
  forallb setup_event tb = true.
Proof.
  unfold createMemoryBallast.
  destruct (0 <? builder_MemBallastSize ext (world s)); mrun.
  - destruct (make_bytes _) as [ballast|msg|]; simpl;
      intros H; [injection H as <- <- <-; reflexivity|discriminate H..].
  - intros H; injection H as <- <- <-; reflexivity.
Qed.

Lemma setupTelemetry_trace
    (n : Z) (s s1 : Sys) (t1 : list Event) :
  setupTelemetry ext n s = (Val None, s1, t1) ->
  t1 = [EvLog Info "Setting up own telemetry..."; EvTelemetryInit n None].
Proof.
  unfold setupTelemetry. mrun.
  destruct (telemetry_init ext (asyncErrorChannel (col s)) n
              (logger (col s)) (world s)) as [[e|] w];
    simpl; intros H; [discriminate H|injection H as <- <-; reflexivity].
Qed.

Lemma teardown_steps_same
    (c c' : Collector Factories) (cerr serr terr : option error) :
  parserProvider c' = parserProvider c ->
  service c' = service c ->
  teardown_steps c' cerr serr terr = teardown_steps c cerr serr terr.
Proof. intros Hp Hs. unfold teardown_steps. now rewrite Hp, Hs. Qed.

Lemma execute_shutdown_trace
    (ballast : option (list Byte.byte)) (s : Sys) (c : chan State)
    (cerr serr terr : option error) (w1 w2 w3 : World) :
  stateChannel (col s) = Some c ->
  chan_closed c = false ->
  Z.of_nat (List.length (chan_buf c)) < chan_cap c ->
  match parserProvider (col s) with
  | Some closable =>
      if is_Closeable closable
      then provider_Close ext closable (world s)
      else (None, world s)
  | None => (None, world s)
  end = (cerr, w1) ->
  match service (col s) with
  | Some svc => service_Shutdown ext svc w1
  | None => (None, w1)
  end = (serr, w2) ->
  telemetry_shutdown ext w2 = (terr, w3) ->
  exists s',
    execute_shutdown ext ballast s =
      (Val (Combine
              (recorded "failed to close config" cerr
                 ++ recorded "failed to shutdown service" serr
                 ++ recorded "failed to shutdown application telemetry" terr)),
       s',
       [EvKeepAlive; EvLog Info "Starting shutdown..."]
         ++ teardown_steps (col s) cerr serr terr
         ++ [EvLog Info "Shutdown complete."; EvSend Closed;
             EvCloseStateChannel]) /\
    col s' =
      set_stateChannel
        (Some {| chan_cap := chan_cap c;
                 chan_buf := chan_buf c ++ [Closed];
                 chan_closed := true |}) (col s) /\
    world s' = w3 /\
    goroutines s' = goroutines s.
Proof.
  intros Hc Hopen Hroom Hclose Hdown Htel.
  unfold execute_shutdown, teardown_steps. mrun.
  revert Hclose Hdown.
  destruct (parserProvider (col s)) as [closable|];
    [destruct (is_Closeable closable)|];
    intros Hclose; simpl;
    first [injection Hclose as <- <-|rewrite Hclose]; simpl.
  all: try destruct cerr as [e1|]; simpl.
  all: destruct (service (col s)) as [svc|];
    intros Hdown; simpl;
    first [injection Hdown as <- <-|rewrite Hdown]; simpl.
  all: try destruct serr as [e2|]; simpl.
  all: rewrite Htel; simpl.
  all: destruct terr as [e3|]; simpl.
  all: match goal with
       | |- context [send_state Closed ?s1] =>
           rewrite (@send_state_ok Closed s1 c Hc Hopen Hroom)
       end; simpl.
  all: unfold close_state; mrun.
  all: eexists; repeat split.
Qed.

Lemma runAndWaitForShutdownEvent_trace
    (s : Sys) (c : chan State) (pp : ParserProvider)
    (k : nat) (ev : ShutdownEvent) (w : World) :
  stateChannel (col s) = Some c ->
  chan_closed c = false ->
  Z.of_nat (List.length (chan_buf c)) + 2 <= chan_cap c ->
  parserProvider (col s) = Some pp ->
  select_wait ext (world s) = ((k, Some ev), w) ->
  exists s_mid s_bg tbg s' lvl msg,
    world s_mid = w /\
    goroutines s_mid = goroutines s /\
    parserProvider (col s_mid) = Some pp /\
    service (col s_mid) = service (col s) /\
    run_watch_tasks ext k s_mid = (Val tt, s_bg, tbg) /\
    runAndWaitForShutdownEvent ext s =
      (Val tt, s',
       [EvLog Info "Everything is ready. Begin running and processing data.";
        EvSignalNotify; EvSend Running]
         ++ tbg ++ [EvLog lvl msg; EvSend Closing]) /\
    service (col s') = service (col s_bg) /\
    parserProvider (col s') = Some pp /\
    goroutines s' = goroutines s_bg /\
    world s' = world s_bg /\
    stateChannel (col s') =
      Some {| chan_cap := chan_cap c;
              chan_buf := (chan_buf c ++ [Running]) ++ [Closing];
              chan_closed := false |}.
Proof.
  intros Hc Hopen Hroom Hpp Hsel.
  unfold runAndWaitForShutdownEvent, select_shutdown_event. mrun.
  match goal with
  | |- context [send_state Running ?s1] =>
      rewrite (@send_state_ok Running s1 c Hc Hopen ltac:(lia))
  end.
  simpl. rewrite Hsel. simpl.
  match goal with
  | |- context [run_watch_tasks ext k ?s2] =>
      destruct (@run_watch_tasks_frame k pp s2 Hpp)
        as (s_bg & tbg & Hrun & _ & [v Hv]);
      exists s2, s_bg, tbg
  end.
  rewrite Hrun. simpl.
  assert (Hroom' :
    Z.of_nat (List.length (chan_buf c ++ [Running])) < chan_cap c).
  { rewrite length_app. simpl. lia. }
  assert (Hch : stateChannel (col s_bg) =
                Some {| chan_cap := chan_cap c;
                        chan_buf := chan_buf c ++ [Running];
                        chan_closed := false |}).
  { rewrite Hv. reflexivity. }
  assert (Hstop : stopTestChan (col s_bg) = Some (make_chan 0)).
  { rewrite Hv. reflexivity. }
  destruct ev as [err|sg|]; simpl;
    rewrite ?(Shutdown_closes s_bg Hstop eq_refl); simpl;
    match goal with
    | |- context [send_state Closing ?s3] =>
        rewrite (@send_state_ok Closing s3 _ Hch eq_refl Hroom')
    end; simpl;
    match goal with
    | |- exists s' lvl msg,
          _ /\ _ /\ _ /\ _ /\ _ /\ (_, ?st, _) = _ /\ _ =>
        exists st
    end; do 2 eexists;
    (split; [reflexivity|]); (split; [reflexivity|]);
    (split; [exact Hpp|]); (split; [reflexivity|]);
    (split; [reflexivity|]);
    (split; [rewrite ?app_nil_r; reflexivity|]);
    simpl; rewrite Hv; simpl; repeat split; exact Hpp.
Qed.

Lemma execute_unfolds
    (s : Sys) (c : chan State) (bb : option (list Byte.byte) * Z)
    (tb : list Event) :
  stateChannel (col s) = Some c ->
  chan_closed c = false ->
  Z.of_nat (List.length (chan_buf c)) < chan_cap c ->
  createMemoryBallast ext s = (Val bb, s, tb) ->
  let t0 :=
    [EvLog Info
       (String.append "Starting "
          (String.append (component.BuildInfo_Command (info (col s))) "..."));
     EvSend Starting] ++ tb in
  execute ext s =
    match setupTelemetry ext (snd bb) (entered s c) with
    | (Val (Some err), s1, t1) => (Val (Some err), s1, t0 ++ t1)
    | (Val None, s1, t1) =>
        match setupConfigurationComponents ext s1 with
        | (Val (Some err), s2, t2) => (Val (Some err), s2, t0 ++ t1 ++ t2)
        | (Val None, s2, t2) =>
            match runAndWaitForShutdownEvent ext s2 with
            | (Val _, s3, t3) =>
                match execute_shutdown ext (fst bb) s3 with
                | (r, s4, t4) => (r, s4, t0 ++ t1 ++ t2 ++ t3 ++ t4)
                end
            | (Panic msg, s3, t3) => (Panic msg, s3, t0 ++ t1 ++ t2 ++ t3)
            | (Block, s3, t3) => (Block, s3, t0 ++ t1 ++ t2 ++ t3)
            end
        | (Panic msg, s2, t2) => (Panic msg, s2, t0 ++ t1 ++ t2)
        | (Block, s2, t2) => (Block, s2, t0 ++ t1 ++ t2)
        end
    | (Panic msg, s1, t1) => (Panic msg, s1, t0 ++ t1)
    | (Block, s1, t1) => (Block, s1, t0 ++ t1)
    end.
Proof.
  intros Hc Hopen Hroom Hb t0. subst t0.
  unfold execute. mrun.
  rewrite (@send_state_ok Starting s c Hc Hopen Hroom). simpl.
  match goal with
  | |- context [createMemoryBallast ext ?s0] =>
      destruct (@createMemoryBallast_same_world s s0 bb tb eq_refl Hb)
        as (Hb0 & Hin)
  end.
  rewrite Hb0. simpl.
  match goal with
  | |- context [setupTelemetry ext (snd bb) ?s0] =>
      change s0 with (entered s c)
  end.
  destruct (setupTelemetry ext (snd bb) (entered s c))
    as [[[[e|]| |] s1] t1]; simpl;
    [|destruct (setupConfigurationComponents ext s1)
        as [[[[e|]| |] s2] t2]; simpl;
      [|destruct (runAndWaitForShutdownEvent ext s2)
          as [[[[]| |] s3] t3]; simpl;
        [destruct (execute_shutdown ext (fst bb) s3) as [[r s4] t4]| |]
       | |]
     | |];
    rewrite ?app_nil_r, <- ?app_assoc; reflexivity.
Qed.

(** A run of [execute] whose setup succeeds and in which a shutdown event
    fires, laid out: entry, telemetry, configuration, the wait with the
    background activity [tbg], the shutdown sequence. *)
Lemma execute_completed
    (s s1 s2 : Sys) (c : chan State)
    (ballast : option (list Byte.byte)) (bytes : Z)
    (tb t1 t2 : list Event)
    (k : nat) (ev : ShutdownEvent) (w : World) :
  stateChannel (col s) = Some c ->
  chan_closed c = false ->
  Z.of_nat (List.length (chan_buf c)) + 4 <= chan_cap c ->
  createMemoryBallast ext s = (Val (ballast, bytes), s, tb) ->
  setupTelemetry ext bytes (entered s c) = (Val None, s1, t1) ->
  setupConfigurationComponents ext s1 = (Val None, s2, t2) ->
  select_wait ext (world s2) = ((k, Some ev), w) ->
  exists pp svc pre2 s_mid s_bg tbg lvl msg cerr serr terr s',
    parserProvider (col s) = Some pp /\
    t2 = pre2 ++ [EvServiceStart svc None; EvAssignService (Some svc)]
             ++ (if is_Watchable pp then [EvGo] else []) /\
    forallb setup_event t2 = true /\
    forallb inert pre2 = true /\
    parserProvider (col s_mid) = Some pp /\
    service (col s_mid) = Some svc /\
    goroutines s_mid =
      goroutines s ++ (if is_Watchable pp then [pp] else []) /\
    run_watch_tasks ext k s_mid = (Val tt, s_bg, tbg) /\
    execute ext s =
      (Val (Combine
              (recorded "failed to close config" cerr
                 ++ recorded "failed to shutdown service" serr
                 ++ recorded "failed to shutdown application telemetry" terr)),
       s',
       ([EvLog Info
           (String.append "Starting "
              (String.append (component.BuildInfo_Command (info (col s)))
                 "..."));
         EvSend Starting] ++ tb)
         ++ [EvLog Info "Setting up own telemetry...";
             EvTelemetryInit bytes None]
         ++ t2
         ++ ([EvLog Info
                "Everything is ready. Begin running and processing data.";
              EvSignalNotify; EvSend Running]
               ++ tbg ++ [EvLog lvl msg; EvSend Closing])
         ++ ([EvKeepAlive; EvLog Info "Starting shutdown..."]
               ++ teardown_steps (col s_bg) cerr serr terr
               ++ [EvLog Info "Shutdown complete."; EvSend Closed;
                   EvCloseStateChannel])) /\
    service (col s') = service (col s_bg) /\
    goroutines s' = goroutines s_bg.
Proof.
  intros Hc Hopen Hroom Hb Htel Hsetup Hsel.
  rewrite (@execute_unfolds s c (ballast, bytes) tb Hc Hopen ltac:(lia) Hb).
  simpl snd. simpl fst. rewrite Htel, Hsetup.
  destruct (setupTelemetry_frame _ _ Htel) as (_ & Hcol1 & Hg1 & _).
  rewrite (setupTelemetry_trace _ _ Htel).
  pose proof (setupConfigurationComponents_outcome s1) as Hout.
  pose proof (setupConfigurationComponents_events s1) as Hev.
  rewrite Hsetup in Hout, Hev. simpl in Hev.
  destruct Hout as (pp & svc & pre2 & Hpp & Ht2 & Hin2 & Hcol2 & Hg2).
  assert (Hc2 : stateChannel (col s2) =
                Some {| chan_cap := chan_cap c;
                        chan_buf := chan_buf c ++ [Starting];
                        chan_closed := false |}).
  { rewrite Hcol2, Hcol1. reflexivity. }
  assert (Hpp2 : parserProvider (col s2) = Some pp).
  { rewrite Hcol2. exact Hpp. }
  assert (Hpp0 : parserProvider (col s) = Some pp).
  { rewrite Hcol1 in Hpp. exact Hpp. }
  destruct (@runAndWaitForShutdownEvent_trace s2 _ pp k ev w Hc2 eq_refl)
    as (s_mid & s_bg & tbg & s3 & lvl & msg & Hw & Hgm & Hppm & Hsm & Hbg
        & Hrun3 & Hs3 & Hpp3 & Hg3 & Hw3 & Hc3); auto.
  { simpl. rewrite length_app. simpl. lia. }
  rewrite Hrun3.
  destruct (match parserProvider (col s3) with
            | Some closable =>
                if is_Closeable closable
                then provider_Close ext closable (world s3)
                else (None, world s3)
            | None => (None, world s3)
            end) as [cerr w1] eqn:Hclose.
  destruct (match service (col s3) with
            | Some svc0 => service_Shutdown ext svc0 w1
            | None => (None, w1)
            end) as [serr w2] eqn:Hdown.
  destruct (telemetry_shutdown ext w2) as [terr w3] eqn:Hts.
  destruct (@execute_shutdown_trace ballast s3 _ cerr serr terr w1 w2 w3
              Hc3 eq_refl)
    as (s4 & Hrun4 & Hcol4 & _ & Hg4); auto.
  { simpl. rewrite !length_app. simpl. lia. }
  rewrite Hrun4.
  assert (Hbgpp : parserProvider (col s_bg) = Some pp).
  { destruct (@run_watch_tasks_frame k pp s_mid Hppm)
      as (sb & tb' & Hrun' & _ & [v Hv]).
    rewrite Hbg in Hrun'. injection Hrun' as <- <-.
    rewrite Hv. exact Hppm. }
  rewrite (@teardown_steps_same (col s_bg) (col s3) cerr serr terr)
    by (rewrite ?Hpp3, ?Hbgpp, ?Hs3; reflexivity).
  exists pp, svc, pre2, s_mid, s_bg, tbg, lvl, msg, cerr, serr, terr, s4.
  split; [exact Hpp0|]. split; [exact Ht2|]. split; [exact Hev|].
  split; [exact Hin2|]. split; [exact Hppm|].
  split; [rewrite Hsm, Hcol2; reflexivity|].
  split; [rewrite Hgm, Hg2, Hg1; reflexivity|].
  split; [exact Hbg|]. split; [reflexivity|].
  split; [rewrite Hcol4; simpl; exact Hs3|].
  rewrite Hg4. exact Hg3.
Qed.

(** X10: in a run of [execute] that goes to its end, a closeable provider
    is closed once by every reload that ran during the wait and once more by
    the shutdown sequence; a provider that is not closeable is never
    closed. *)
Theorem execute_provider_closes
    (s s1 s2 : Sys) (c : chan State) (pp : ParserProvider)
    (ballast : option (list Byte.byte)) (bytes : Z)
    (tb t1 t2 : list Event)
    (k : nat) (ev : ShutdownEvent) (w : World) :
  stateChannel (col s) = Some c ->
  chan_closed c = false ->
  Z.of_nat (List.length (chan_buf c)) + 4 <= chan_cap c ->
  parserProvider (col s) = Some pp ->
  createMemoryBallast ext s = (Val (ballast, bytes), s, tb) ->
  setupTelemetry ext bytes (entered s c) = (Val None, s1, t1) ->
  setupConfigurationComponents ext s1 = (Val None, s2, t2) ->
  select_wait ext (world s2) = ((k, Some ev), w) ->
  count is_provider_close (snd (execute ext s)) =
    (if is_Closeable pp
     then count is_reload (snd (execute ext s)) + 1 else 0)%nat.
Proof.
  intros Hc Hopen Hroom Hpp Hb Htel Hsetup Hsel.
  destruct (execute_completed Hc Hopen Hroom Hb Htel Hsetup Hsel)
    as (pp' & svc & pre2 & s_mid & s_bg & tbg & lvl & msg & cerr & serr & terr
        & s' & Hpp' & _ & Hev2 & _ & Hppm & _ & _ & Hbg & Hrun & _).
  rewrite Hpp in Hpp'. injection Hpp' as <-.
  rewrite Hrun. cbn [snd].
  pose proof (createMemoryBallast_trace _ Hb) as Hevb.
  destruct (@run_watch_tasks_events k pp s_mid Hppm) as (Hbgs & Hcnt).
  rewrite Hbg in Hbgs, Hcnt. simpl in Hbgs, Hcnt.
  assert (Hbgpp : parserProvider (col s_bg) = Some pp).
  { destruct (@run_watch_tasks_frame k pp s_mid Hppm)
      as (sb & tb' & Hrun' & _ & [v Hv]).
    rewrite Hbg in Hrun'. injection Hrun' as <- <-.
    rewrite Hv. exact Hppm. }
  unfold teardown_steps. rewrite Hbgpp.
  repeat (rewrite count_app || rewrite count_cons).
  rewrite (count_none setup_event is_provider_close tb)
    by (assumption || (intros []; simpl; congruence)).
  rewrite (count_none setup_event is_reload tb)
    by (assumption || (intros []; simpl; congruence)).
  rewrite (count_none setup_event is_provider_close t2)
    by (assumption || (intros []; simpl; congruence)).
  rewrite (count_none setup_event is_reload t2)
    by (assumption || (intros []; simpl; congruence)).
  rewrite Hcnt.
  destruct (is_Closeable pp); destruct (service (col s_bg));
    unfold count; simpl; lia.
Qed.

(** X11: in a run of [execute] that goes to its end, telemetry is
    initialised exactly once and shut down exactly once, and the ballast is
    kept alive at exactly one point, whatever reloads ran during the wait:
    the watch goroutines never touch telemetry. *)
Theorem execute_telemetry_once
    (s s1 s2 : Sys) (c : chan State)
    (ballast : option (list Byte.byte)) (bytes : Z)
    (tb t1 t2 : list Event)
    (k : nat) (ev : ShutdownEvent) (w : World) :
  stateChannel (col s) = Some c ->
  chan_closed c = false ->
  Z.of_nat (List.length (chan_buf c)) + 4 <= chan_cap c ->
  createMemoryBallast ext s = (Val (ballast, bytes), s, tb) ->
  setupTelemetry ext bytes (entered s c) = (Val None, s1, t1) ->
  setupConfigurationComponents ext s1 = (Val None, s2, t2) ->
  select_wait ext (world s2) = ((k, Some ev), w) ->
  filter is_telemetry_init (snd (execute ext s)) =
    [EvTelemetryInit bytes None] /\
  count is_telemetry_shutdown (snd (execute ext s)) = 1%nat /\
  count is_keep_alive (snd (execute ext s)) = 1%nat.
Proof.
  intros Hc Hopen Hroom Hb Htel Hsetup Hsel.
  destruct (execute_completed Hc Hopen Hroom Hb Htel Hsetup Hsel)
    as (pp & svc & pre2 & s_mid & s_bg & tbg & lvl & msg & cerr & serr & terr
        & s' & _ & _ & Hev2 & _ & Hppm & _ & _ & Hbg & Hrun & _).
  rewrite Hrun. cbn [snd].
  pose proof (createMemoryBallast_trace _ Hb) as Hevb.
  destruct (@run_watch_tasks_events k pp s_mid Hppm) as (Hbgs & _).
  rewrite Hbg in Hbgs. simpl in Hbgs.
  unfold teardown_steps, count.
  rewrite !filter_app.
  rewrite !(forallb_filter_nil setup_event _ tb)
    by (assumption || (intros []; simpl; congruence)).
  rewrite !(forallb_filter_nil setup_event _ t2)
    by (assumption || (intros []; simpl; congruence)).
  rewrite !(forallb_filter_nil background _ tbg)
    by (assumption || (intros []; simpl; congruence)).
  destruct (parserProvider (col s_bg)) as [p|];
    [destruct (is_Closeable p)|];
    destruct (service (col s_bg)); simpl; repeat split.
Qed.

(** X12: with a provider that is not watchable and no goroutine pending, a
    run of [execute] that goes to its end never reloads: the only assignment
    to [col.service] is the one of the setup, the service shut down by the
    shutdown sequence is that very instance, shut down once, and
    [col.service] still refers to it when [execute] returns. *)
Theorem execute_without_watch
    (s s1 s2 : Sys) (c : chan State) (pp : ParserProvider)
    (ballast : option (list Byte.byte)) (bytes : Z)
    (tb t1 t2 : list Event)
    (k : nat) (ev : ShutdownEvent) (w : World) :
  stateChannel (col s) = Some c ->
  chan_closed c = false ->
  Z.of_nat (List.length (chan_buf c)) + 4 <= chan_cap c ->
  parserProvider (col s) = Some pp ->
  is_Watchable pp = false ->
  goroutines s = [] ->
  createMemoryBallast ext s = (Val (ballast, bytes), s, tb) ->
  setupTelemetry ext bytes (entered s c) = (Val None, s1, t1) ->
  setupConfigurationComponents ext s1 = (Val None, s2, t2) ->
  select_wait ext (world s2) = ((k, Some ev), w) ->
  exists svc serr,
    count is_reload (snd (execute ext s)) = O /\
    count is_watch (snd (execute ext s)) = O /\
    filter is_assign (snd (execute ext s)) = [EvAssignService (Some svc)] /\
    filter is_service_shutdown (snd (execute ext s)) =
      [EvServiceShutdown svc serr] /\
    service (col (snd (fst (execute ext s)))) = Some svc /\
    goroutines (snd (fst (execute ext s))) = [].
Proof.
  intros Hc Hopen Hroom Hpp Hnw Hg Hb Htel Hsetup Hsel.
  destruct (execute_completed Hc Hopen Hroom Hb Htel Hsetup Hsel)
    as (pp' & svc & pre2 & s_mid & s_bg & tbg & lvl & msg & cerr & serr & terr
        & s' & Hpp' & Ht2 & Hev2 & Hin2 & Hppm & Hsm & Hgm & Hbg & Hrun
        & Hs' & Hg').
  rewrite Hpp in Hpp'. injection Hpp' as <-.
  rewrite Hnw in Ht2, Hgm. rewrite Hg in Hgm. simpl in Hgm.
  rewrite (run_watch_tasks_idle k s_mid Hgm) in Hbg.
  injection Hbg as <- <-.
  rewrite Hrun. cbn [snd fst].
  pose proof (createMemoryBallast_trace _ Hb) as Hevb.
  exists svc, serr.
  unfold teardown_steps, count. rewrite Hppm, Hsm.
  rewrite !filter_app.
  destruct (@createMemoryBallast_same_world s s (ballast, bytes) tb
              eq_refl Hb) as (_ & Hinb).
  rewrite (forallb_filter_nil setup_event is_reload tb)
    by (assumption || (intros []; simpl; congruence)).
  rewrite (forallb_filter_nil setup_event is_watch tb)
    by (assumption || (intros []; simpl; congruence)).
  rewrite (forallb_filter_nil setup_event is_service_shutdown tb)
    by (assumption || (intros []; simpl; congruence)).
  rewrite (inert_filter is_assign tb) by auto using inert_not_assign.
  rewrite (forallb_filter_nil setup_event is_reload t2)
    by (assumption || (intros []; simpl; congruence)).
  rewrite (forallb_filter_nil setup_event is_watch t2)
    by (assumption || (intros []; simpl; congruence)).
  rewrite (forallb_filter_nil setup_event is_service_shutdown t2)
    by (assumption || (intros []; simpl; congruence)).
  rewrite Ht2 at 1. rewrite !filter_app.
  rewrite (inert_filter is_assign pre2) by auto using inert_not_assign.
  rewrite Hs', Hsm, Hg', Hgm.
  destruct (is_Closeable pp); simpl; repeat split.
Qed.

Lemma runAndWaitForShutdownEvent_waits
    (s : Sys) (c : chan State) (pp : ParserProvider) (k : nat) (w : World) :
  stateChannel (col s) = Some c ->
  chan_closed c = false ->
  Z.of_nat (List.length (chan_buf c)) < chan_cap c ->
  parserProvider (col s) = Some pp ->
  select_wait ext (world s) = ((k, None), w) ->
  exists s' tbg,
    runAndWaitForShutdownEvent ext s =
      (Block, s',
       [EvLog Info "Everything is ready. Begin running and processing data.";
        EvSignalNotify; EvSend Running] ++ tbg) /\
    forallb background tbg = true.
Proof.
  intros Hc Hopen Hroom Hpp Hsel.
  unfold runAndWaitForShutdownEvent, select_shutdown_event. mrun.
  match goal with
  | |- context [send_state Running ?s1] =>
      rewrite (@send_state_ok Running s1 c Hc Hopen Hroom)
  end.
  simpl. rewrite Hsel. simpl.
  match goal with
  | |- context [run_watch_tasks ext k ?s2] =>
      destruct (@run_watch_tasks_frame k pp s2 Hpp)
        as (s_bg & tbg & Hrun & _);
      destruct (@run_watch_tasks_events k pp s2 Hpp) as (Hbg & _)
  end.
  rewrite Hrun in *. simpl in *.
  exists s_bg, tbg. split; [|exact Hbg].
  now rewrite !app_nil_r.
Qed.

(** X13: Closing is sent only after a shutdown event.  In a run of
    [execute] whose setup succeeds and in which no event ever fires,
    [execute] does not return: Starting and Running are sent, and the primary
    flow never reaches the shutdown sequence (the channel is not closed, the
    ballast is still retained, telemetry is not shut down), whatever the
    watch goroutines do meanwhile. *)
Theorem execute_waits_for_event
    (s s1 s2 : Sys) (c : chan State)
    (ballast : option (list Byte.byte)) (bytes : Z)
    (tb t1 t2 : list Event) (k : nat) (w : World) :
  stateChannel (col s) = Some c ->
  chan_closed c = false ->
  Z.of_nat (List.length (chan_buf c)) + 2 <= chan_cap c ->
  createMemoryBallast ext s = (Val (ballast, bytes), s, tb) ->
  setupTelemetry ext bytes (entered s c) = (Val None, s1, t1) ->
  setupConfigurationComponents ext s1 = (Val None, s2, t2) ->
  select_wait ext (world s2) = ((k, None), w) ->
  exists s' t,
    execute ext s = (Block, s', t) /\
    sent t = [Starting; Running] /\
    count is_close t = O /\
    count is_keep_alive t = O /\
    count is_telemetry_shutdown t = O.
Proof.
  intros Hc Hopen Hroom Hb Htel Hsetup Hsel.
  rewrite (@execute_unfolds s c (ballast, bytes) tb Hc Hopen ltac:(lia) Hb).
  cbn [snd fst]. rewrite Htel, Hsetup.
  destruct (setupTelemetry_frame _ _ Htel) as (_ & Hcol1 & _ & _).
  rewrite (setupTelemetry_trace _ _ Htel).
  pose proof (setupConfigurationComponents_outcome s1) as Hout.
  pose proof (setupConfigurationComponents_events s1) as Hev.
  rewrite Hsetup in Hout, Hev. simpl in Hev.
  destruct Hout as (pp & svc & pre2 & Hpp & _ & _ & Hcol2 & _).
  assert (Hc2 : stateChannel (col s2) =
                Some {| chan_cap := chan_cap c;
                        chan_buf := chan_buf c ++ [Starting];
                        chan_closed := false |}).
  { rewrite Hcol2, Hcol1. reflexivity. }
  assert (Hpp2 : parserProvider (col s2) = Some pp).
  { rewrite Hcol2. exact Hpp. }
  destruct (@runAndWaitForShutdownEvent_waits s2 _ pp k w Hc2 eq_refl)
    as (s3 & tbg & Hrun3 & Hbg); auto.
  { simpl. rewrite length_app. simpl. lia. }
  rewrite Hrun3.
  pose proof (createMemoryBallast_trace _ Hb) as Hevb.
  do 2 eexists. split; [reflexivity|].
  unfold count. rewrite !sent_app, !filter_app.
  rewrite (off_channel_sent tb)
    by (apply (forallb_weaken setup_event);
        auto using setup_event_off_channel).
  rewrite (off_channel_sent t2)
    by (apply (forallb_weaken setup_event);
        auto using setup_event_off_channel).
  rewrite (off_channel_sent tbg)
    by (apply (forallb_weaken background);
        auto using background_off_channel).
  rewrite !(forallb_filter_nil setup_event _ tb)
    by (assumption || (intros []; simpl; congruence)).
  rewrite !(forallb_filter_nil setup_event _ t2)
    by (assumption || (intros []; simpl; congruence)).
  rewrite !(forallb_filter_nil background _ tbg)
    by (assumption || (intros []; simpl; congruence)).
  simpl. repeat split.
Qed.

(** The collector that [New] returns has the state channel that the runs
    of [execute] above start from. *)
Lemma New_state_channel_ready
    (params : Parameters Factories LoggingOption)
    (c : Collector Factories) (t : list Event) :
  New ext params = (Some c, None, t) ->
  exists ch,
    stateChannel c = Some ch /\
    chan_closed ch = false /\
    Z.of_nat (List.length (chan_buf ch)) + 4 <= chan_cap ch.
Proof.
  unfold New.
  destruct (ValidateConfigFromFactories ext (Params_Factories params));
    [discriminate|].
  intros H. injection H as <- _.
  eexists. split; [reflexivity|]. split; [reflexivity|]. simpl. lia.
Qed.

End Facts.

(** * The properties at work in the scripted environment *)


Lemma execute_shutdown_every_step_witness :
  (exists s' t,
      execute_shutdown (scripted stubborn) None running_sys =
        (Val (Some (Combined
                      [Errorf "failed to close config" (ErrNew "provider busy");
                       Errorf "failed to shutdown service"
                         (ErrNew "service busy")])),
         s', t) /\
      filter is_teardown t =
        [EvKeepAlive; EvProviderClose (Some (ErrNew "provider busy"));
         EvServiceShutdown 7%nat (Some (ErrNew "service busy"));
         EvTelemetryShutdown None]) /\
  (exists s' t,
      execute_shutdown (scripted calm) None running_sys = (Val None, s', t) /\
      filter is_teardown t =
        [EvKeepAlive; EvProviderClose None; EvServiceShutdown 7%nat None;
         EvTelemetryShutdown None]).
Proof.
  split.
  - destruct (@execute_shutdown_every_step _ _ _ _ _ (scripted stubborn) None
                running_sys (make_chan 4)
                (Some (ErrNew "provider busy")) (Some (ErrNew "service busy"))
                None 8%nat 8%nat 8%nat
                eq_refl eq_refl eq_refl eq_refl eq_refl eq_refl)
      as (s' & t & Hrun & Hsteps & _).
    exists s', t. split; [exact Hrun|exact Hsteps].
  - destruct (@execute_shutdown_every_step _ _ _ _ _ (scripted calm) None
                running_sys (make_chan 4) None None None 8%nat 8%nat 8%nat
                eq_refl eq_refl eq_refl eq_refl eq_refl eq_refl)
      as (s' & t & Hrun & Hsteps & _).
    exists s', t. split; [exact Hrun|exact Hsteps].
Defined.

Lemma execute_setup_failure_witness :
  exists t,
    execute (scripted no_telemetry) (demo_sys None) =
      (Val (Some (Errorf "failed to initialize telemetry"
                    (ErrNew "no telemetry"))),
       entered (demo_sys None) (make_chan 4), t) /\
    sent t = [Starting] /\
    filter is_close t = [] /\
    stateChannel (col (entered (demo_sys None) (make_chan 4))) =
      Some {| chan_cap := 4; chan_buf := [] ++ [Starting]; chan_closed := false |}.
Proof.
  apply (@execute_setup_failure _ _ _ _ _ (scripted no_telemetry)
           (demo_sys None) _ (make_chan 4) None 0 []);
    try reflexivity.
  left. eexists. reflexivity.
Defined.

Lemma execute_setup_failure_no_teardown_witness :
  exists t,
    execute (scripted invalid_config) (demo_sys None) =
      (Val (Some (Errorf "invalid configuration" (ErrNew "no pipelines"))),
       entered (demo_sys None) (make_chan 4), t) /\
    filter is_teardown t = [] /\
    filter is_assign t = [] /\
    service (col (entered (demo_sys None) (make_chan 4))) =
      service (col (demo_sys None)) /\
    (service (col (demo_sys None)) = None ->
     service (col (entered (demo_sys None) (make_chan 4))) = None).
Proof.
  eapply (@execute_setup_failure_no_teardown _ _ _ _ _ (scripted invalid_config)
            (demo_sys None) _ _ (make_chan 4) None 0 []);
    reflexivity.
Defined.

Lemma reloadService_retires_first_witness :
  (exists r s' post,
      reloadService (scripted stuck_service) running_sys =
        (Val r, s',
         [EvReloadService; EvProviderClose None; EvAssignService None;
          EvServiceShutdown 7%nat (Some (ErrNew "service busy"))] ++ post) /\
      r = Some (Errorf "failed to shutdown the retiring config"
                  (ErrNew "service busy")) /\
      post = [] /\
      service (col s') = None) /\
  (exists r s' post,
      reloadService (scripted calm) running_sys =
        (Val r, s',
         [EvReloadService; EvProviderClose None; EvAssignService None;
          EvServiceShutdown 7%nat None] ++ post) /\
      forall svc, service (col s') = Some svc ->
                  In (EvAssignService (Some svc)) post).
Proof.
  split.
  - destruct (@reloadService_retires_first _ _ _ _ _ (scripted stuck_service)
                running_sys full_provider 7%nat 8%nat 8%nat
                (Some (ErrNew "service busy"))
                eq_refl eq_refl eq_refl eq_refl)
      as (r & s' & post & Hrun & Hfail & _).
    exists r, s', post. split; [exact Hrun|]. exact (Hfail _ eq_refl).
  - destruct (@reloadService_retires_first _ _ _ _ _ (scripted calm)
                running_sys full_provider 7%nat 8%nat 8%nat None
                eq_refl eq_refl eq_refl eq_refl)
      as (r & s' & post & Hrun & _ & _ & Hnew).
    exists r, s', post. split; [exact Hrun|exact Hnew].
Defined.

Lemma reloadService_close_failure_witness :
  reloadService (scripted stubborn) running_sys =
    (Val (Some (Errorf "failed close current config provider"
                  (ErrNew "provider busy"))),
     set_world 8%nat running_sys,
     [EvReloadService; EvProviderClose (Some (ErrNew "provider busy"))]).
Proof.
  apply (@reloadService_close_failure _ _ _ _ _ (scripted stubborn) running_sys
           full_provider);
    reflexivity.
Defined.


Lemma createMemoryBallast_sizes_witness :
  createMemoryBallast (scripted calm) (demo_sys None) =
    (Val (None, 0), demo_sys None, []) /\
  exists ballast,
    createMemoryBallast (scripted one_MiB) (demo_sys None) =
      (Val (Some ballast, 1 * 1048576), demo_sys None,
       [EvLog Info "Using memory ballast"]) /\
    Z.of_nat (List.length ballast) = 1 * 1048576.
Proof.
  split.
  - apply (proj1 (createMemoryBallast_sizes (scripted calm) (demo_sys None))).
    reflexivity.
  - apply (proj2 (createMemoryBallast_sizes (scripted one_MiB)
                    (demo_sys None))).
    + reflexivity.
    + vm_compute. discriminate.
    + reflexivity.
Defined.

Lemma Shutdown_idempotent_witness :
  Shutdown stopped_sys =
    (Val tt, stopped_sys, [EvLog Info "stopTestChan already closed"]).
Proof.
  apply (@Shutdown_idempotent _ _ stopped_sys
           {| chan_cap := 0; chan_buf := []; chan_closed := true |});
    try reflexivity.
  discriminate.
Defined.

Lemma New_validates_first_witness :
  New (scripted bad_factories) (demo_params None) =
    (None, Some (ErrNew "bad factory"), []) /\
  exists c t,
    New (scripted calm) (demo_params None) = (Some c, None, t) /\
    parserProvider c <> None /\
    (Params_ParserProvider (demo_params None) = None ->
     parserProvider c = Some (parserprovider_Default (scripted calm))) /\
    (forall p, Params_ParserProvider (demo_params None) = Some p ->
               parserProvider c = Some p) /\
    stateChannel c = Some (make_chan (Z.of_nat (List.length all_States))) /\
    service c = None.
Proof.
  split.
  - apply (proj1 (New_validates_first (scripted bad_factories)
                    (demo_params None))).
    reflexivity.
  - apply (proj2 (New_validates_first (scripted calm) (demo_params None))).
    reflexivity.
Defined.

(** With 2^29 MiB configured the byte count, 2^49, is above the allocation
    limit of the runtime: [make] panics and no buffer is returned. *)
Lemma createMemoryBallast_panics_beyond_limit :
  0 < builder_MemBallastSize (scripted beyond_limit) (world (demo_sys None)) /\
  createMemoryBallast (scripted beyond_limit) (demo_sys None) =
    (Panic "runtime error: makeslice: len out of range", demo_sys None, []) /\
  ~ (exists ballast,
        createMemoryBallast (scripted beyond_limit) (demo_sys None) =
          (Val (Some ballast, 536870912 * 1048576), demo_sys None,
           [EvLog Info "Using memory ballast"]) /\
        Z.of_nat (List.length ballast) = 536870912 * 1048576).
Proof.
  assert (Hrun :
    createMemoryBallast (scripted beyond_limit) (demo_sys None) =
      (Panic "runtime error: makeslice: len out of range", demo_sys None, []))
    by reflexivity.
  split; [reflexivity|]. split; [exact Hrun|].
  intros (ballast & Hclaim & _). rewrite Hrun in Hclaim. discriminate Hclaim.
Qed.

(** A collector whose run was stopped by [Shutdown] and on which a second
    [RunE] failed to build its logger: the stop channel is closed, the logger
    is nil, and a further call of [Shutdown] panics in its own handler. *)
Lemma Shutdown_panics_without_logger :
  fst (fst (execute (scripted stopping) (demo_sys None))) = Val None /\
  fst (fst (RunE (scripted_on maxAlloc (Some (ErrNew "no logger")) stopping)
              [] stopped_run)) =
    Val (Some (Errorf "failed to get logger" (ErrNew "no logger"))) /\
  option_map (@chan_closed unit) (stopTestChan (col rerun_without_logger)) =
    Some true /\
  logger (col rerun_without_logger) = None /\
  Shutdown rerun_without_logger =
    (Panic nil_dereference, rerun_without_logger, []) /\
  Shutdown rerun_without_logger <>
    (Val tt, rerun_without_logger,
     [EvLog Info "stopTestChan already closed"]).
Proof.
  assert (Hrun :
    Shutdown rerun_without_logger =
      (Panic nil_dereference, rerun_without_logger, []))
    by (vm_compute; reflexivity).
  repeat split; try (vm_compute; reflexivity); try exact Hrun.
  rewrite Hrun. discriminate.
Qed.

(** With 2^44 MiB configured the byte count wraps around to 0: the buffer is
    empty, not 2^44 * 1,048,576 bytes long. *)
Lemma createMemoryBallast_wraps_to_zero :
  0 < builder_MemBallastSize (scripted huge_ballast) (world (demo_sys None)) /\
  createMemoryBallast (scripted huge_ballast) (demo_sys None) =
    (Val (Some [], 0), demo_sys None, [EvLog Info "Using memory ballast"]) /\
  ~ (exists ballast,
        createMemoryBallast (scripted huge_ballast) (demo_sys None) =
          (Val (Some ballast, 17592186044416 * 1048576), demo_sys None,
           [EvLog Info "Using memory ballast"]) /\
        Z.of_nat (List.length ballast) = 17592186044416 * 1048576).
Proof.
  assert (Hrun :
    createMemoryBallast (scripted huge_ballast) (demo_sys None) =
      (Val (Some [], 0), demo_sys None, [EvLog Info "Using memory ballast"]))
    by reflexivity.
  split; [reflexivity|]. split; [exact Hrun|].
  intros (ballast & Hclaim & _). rewrite Hrun in Hclaim. discriminate Hclaim.
Qed.

(** * Runs in the scripted environment *)

Example errors_Is_sentinel :
  errors_Is_ErrSessionClosed (Some ErrSessionClosed) = true /\
  errors_Is_ErrSessionClosed (Some (Errorf "watch ended" ErrSessionClosed)) = true /\
  errors_Is_ErrSessionClosed (Some (ErrNew "connection lost")) = false /\
  errors_Is_ErrSessionClosed None = false.
Proof. repeat split. Qed.

Example execute_calm_trace :
  snd (execute (scripted calm) (demo_sys (Some full_provider))) =
    [EvLog Info "Starting otelcol..."; EvSend Starting;
     EvLog Info "Setting up own telemetry..."; EvTelemetryInit 0 None;
     EvLog Info "Loading configuration..."; EvProviderGet None; EvLoad None;
     EvValidate None; EvLog Info "Applying configuration...";
     EvNewService (inl O); EvServiceStart O None; EvAssignService (Some O);
     EvGo;
     EvLog Info "Everything is ready. Begin running and processing data.";
     EvSignalNotify; EvSend Running; EvLog Info "Received signal from OS";
     EvSend Closing; EvKeepAlive; EvLog Info "Starting shutdown...";
     EvProviderClose None; EvServiceShutdown O None; EvTelemetryShutdown None;
     EvLog Info "Shutdown complete."; EvSend Closed; EvCloseStateChannel].
Proof. reflexivity. Qed.

(** A reload during the wait replaces service 0 by service 1 and leaves the
    state sequence as it is; the shutdown sequence then stops service 1. *)
Example execute_reloading_run :
  let '(r, s', t) := execute (scripted reloading) (demo_sys (Some full_provider)) in
  r = Val None /\
  sent t = all_States /\
  List.length (filter is_reload t) = 1%nat /\
  filter is_assign t =
    [EvAssignService (Some O); EvAssignService None;
     EvAssignService (Some 1%nat)] /\
  filter is_teardown t =
    [EvProviderClose None; EvServiceShutdown O None; EvKeepAlive;
     EvProviderClose None; EvServiceShutdown 1%nat None;
     EvTelemetryShutdown None] /\
  service (col s') = Some 1%nat /\
  option_map (@chan_closed unit) (stopTestChan (col s')) = Some true.
Proof. vm_compute. repeat split. Qed.

(** Without a shutdown event the run stays in the [select], with Starting
    and Running sent. *)
Example execute_endless_run :
  let '(r, _, t) := execute (scripted endless) (demo_sys (Some full_provider)) in
  r = Block /\ sent t = [Starting; Running].
Proof. vm_compute. repeat split. Qed.

(** A run with an invalid configuration. *)
Example execute_invalid_config_run :
  let '(r, s', t) := execute (scripted invalid_config) (demo_sys None) in
  r = Val (Some (Errorf "invalid configuration" (ErrNew "no pipelines"))) /\
  sent t = [Starting] /\
  option_map (@chan_closed State) (stateChannel (col s')) = Some false.
Proof. vm_compute. repeat split. Qed.

(** A ballast of 2^43 MiB would be 2^63 bytes long, more than a slice can
    hold. *)
Example createMemoryBallast_too_long :
  createMemoryBallast
    (scripted (script None 8796093022208 None None None None None))
    (demo_sys None) =
    (Panic "runtime error: makeslice: len out of range", demo_sys None, []).
Proof. reflexivity. Qed.

(** A ballast of 2 GiB on a machine where the runtime obtains 1 GiB at
    most. *)
Example createMemoryBallast_out_of_memory :
  createMemoryBallast (scripted_on 1073741824 None two_GiB) (demo_sys None) =
    (Panic "fatal error: runtime: out of memory", demo_sys None, []).
Proof. reflexivity. Qed.

(** * The further properties at work in the scripted environment *)

Lemma createMemoryBallast_size_is_length_witness :
  demo_sys None = demo_sys None /\
  0 < builder_MemBallastSize (scripted huge_ballast) (world (demo_sys None)) /\
  Z.of_nat (List.length (@nil Byte.byte)) = 0 /\
  0 = (builder_MemBallastSize (scripted huge_ballast) (world (demo_sys None))
       * 1048576) mod 2 ^ 64.
Proof.
  apply (@createMemoryBallast_size_is_length _ _ _ _ _ (scripted huge_ballast)
           (demo_sys None) (demo_sys None) (Some []) 0
           [EvLog Info "Using memory ballast"]).
  reflexivity.
Defined.

Lemma Shutdown_twice_witness :
  exists s1,
    Shutdown waiting_sys = (Val tt, s1, []) /\
    stopTestChan (col s1) =
      Some {| chan_cap := 0; chan_buf := []; chan_closed := true |} /\
    bind (@Shutdown unit nat) (fun _ => @Shutdown unit nat) waiting_sys =
      (Val tt, s1, [EvLog Info "stopTestChan already closed"]).
Proof.
  apply (@Shutdown_twice _ _ waiting_sys (make_chan 0)); try reflexivity.
  discriminate.
Defined.

Lemma Shutdown_only_stop_channel_witness :
  exists s' t,
    Shutdown running_sys = (Val tt, s', t) /\
    world s' = world running_sys /\
    goroutines s' = goroutines running_sys /\
    (exists v, col s' = set_stopTestChan v (col running_sys)) /\
    (stopTestChan (col running_sys) = None ->
     s' = running_sys /\ t = [EvLog Info "stopTestChan already closed"]).
Proof.
  apply (@Shutdown_only_stop_channel _ _ running_sys). discriminate.
Defined.

Lemma RunE_needs_logger_witness :
  RunE (scripted calm) [] running_sys =
    execute (scripted calm)
      (set_col (set_logger (Some ZapLogger) (col running_sys))
         (set_world 8%nat running_sys)) /\
  exists s',
    RunE (scripted_on maxAlloc (Some (ErrNew "no logger")) calm) []
      running_sys =
      (Val (Some (Errorf "failed to get logger" (ErrNew "no logger"))), s',
       []) /\
    logger (col s') = None /\
    stateChannel (col s') = stateChannel (col running_sys) /\
    world s' = 8%nat.
Proof.
  split.
  - apply (proj2 (@RunE_needs_logger _ _ _ _ _ (scripted calm) []
                    running_sys)).
    reflexivity.
  - apply (proj1 (@RunE_needs_logger _ _ _ _ _
                    (scripted_on maxAlloc (Some (ErrNew "no logger")) calm) []
                    running_sys)).
    reflexivity.
Defined.

Lemma execute_needs_state_channel_witness :
  execute (scripted calm) finished_sys =
    (Panic "send on closed channel", finished_sys,
     [EvLog Info "Starting otelcol..."]).
Proof.
  apply (proj1 (@execute_needs_state_channel _ _ _ _ _ (scripted calm)
                  finished_sys
                  {| chan_cap := 4; chan_buf := all_States;
                     chan_closed := true |}
                  eq_refl)).
  reflexivity.
Defined.

Lemma setupConfigurationComponents_failing_step_witness :
  fst (fst (setupConfigurationComponents (scripted invalid_config)
              (demo_sys None))) =
    Val (Some (Errorf "invalid configuration" (ErrNew "no pipelines"))) /\
  exists pre,
    snd (setupConfigurationComponents (scripted invalid_config)
           (demo_sys None)) =
      pre ++ [EvValidate (Some (ErrNew "no pipelines"))].
Proof.
  destruct (@setupConfigurationComponents_failing_step _ _ _ _ _
              (scripted invalid_config) (demo_sys None) _ _ _ eq_refl)
    as (_ & _ & Hvalidate & _).
  apply Hvalidate. simpl. auto 10.
Defined.

Lemma setupConfigurationComponents_error_origin_witness :
  col (demo_sys None) = col (demo_sys None) /\
  goroutines (demo_sys None) = goroutines (demo_sys None) /\
  (forall svc,
      ~ In (EvServiceStart svc None)
          (snd (setupConfigurationComponents (scripted invalid_config)
                  (demo_sys None)))).
Proof.
  destruct (@setupConfigurationComponents_error_origin _ _ _ _ _
              (scripted invalid_config) (demo_sys None) _ _ _ eq_refl)
    as (Hcol & Hg & Hstart & _).
  exact (conj Hcol (conj Hg Hstart)).
Defined.

Lemma run_watch_tasks_goroutines_witness :
  (List.length
     (goroutines (snd (fst (run_watch_tasks (scripted calm) 3 running_sys))))
   <= List.length (goroutines running_sys))%nat.
Proof.
  apply (@run_watch_tasks_goroutines _ _ _ _ _ (scripted calm) 3 full_provider
           running_sys).
  reflexivity.
Defined.

Lemma reloadService_service_after_witness :
  (exists svc,
      service (col (snd (fst (reloadService (scripted calm) running_sys)))) =
        Some svc /\
      In (EvServiceStart svc None)
         (snd (reloadService (scripted calm) running_sys))) /\
  service
    (col (snd (fst (reloadService (scripted invalid_config) running_sys)))) =
    None.
Proof.
  split.
  - destruct (@reloadService_service_after _ _ _ _ _ (scripted calm)
                running_sys _ full_provider _ _ eq_refl eq_refl)
      as (Hok & _).
    exact (Hok eq_refl).
  - destruct (@reloadService_service_after _ _ _ _ _ (scripted invalid_config)
                running_sys _ full_provider _ _ eq_refl eq_refl)
      as (_ & Herr).
    destruct (Herr _ eq_refl) as [(_ & e0 & He0)|Hnone].
    + discriminate He0.
    + exact Hnone.
Defined.

Lemma execute_provider_closes_witness :
  count is_provider_close
    (snd (execute (scripted reloading) (demo_sys (Some full_provider)))) =
    (if is_Closeable full_provider
     then count is_reload
            (snd (execute (scripted reloading)
                    (demo_sys (Some full_provider)))) + 1
     else 0)%nat.
Proof.
  eapply (@execute_provider_closes _ _ _ _ _ (scripted reloading)
            (demo_sys (Some full_provider)) _ _ (make_chan 4) full_provider);
    reflexivity.
Defined.

Lemma execute_telemetry_once_witness :
  filter is_telemetry_init
    (snd (execute (scripted reloading) (demo_sys (Some full_provider)))) =
    [EvTelemetryInit 0 None] /\
  count is_telemetry_shutdown
    (snd (execute (scripted reloading) (demo_sys (Some full_provider)))) =
    1%nat /\
  count is_keep_alive
    (snd (execute (scripted reloading) (demo_sys (Some full_provider)))) =
    1%nat.
Proof.
  eapply (@execute_telemetry_once _ _ _ _ _ (scripted reloading)
            (demo_sys (Some full_provider)) _ _ (make_chan 4));
    reflexivity.
Defined.

Lemma execute_without_watch_witness :
  exists svc serr,
    count is_reload (snd (execute (scripted reloading) (demo_sys None))) = O /\
    count is_watch (snd (execute (scripted reloading) (demo_sys None))) = O /\
    filter is_assign (snd (execute (scripted reloading) (demo_sys None))) =
      [EvAssignService (Some svc)] /\
    filter is_service_shutdown
      (snd (execute (scripted reloading) (demo_sys None))) =
      [EvServiceShutdown svc serr] /\
    service (col (snd (fst (execute (scripted reloading) (demo_sys None))))) =
      Some svc /\
    goroutines (snd (fst (execute (scripted reloading) (demo_sys None)))) = [].
Proof.
  eapply (@execute_without_watch _ _ _ _ _ (scripted reloading)
            (demo_sys None) _ _ (make_chan 4) default_provider);
    reflexivity.
Defined.

Lemma execute_waits_for_event_witness :
  exists s' t,
    execute (scripted endless) (demo_sys (Some full_provider)) =
      (Block, s', t) /\
    sent t = [Starting; Running] /\
    count is_close t = O /\
    count is_keep_alive t = O /\
    count is_telemetry_shutdown t = O.
Proof.
  eapply (@execute_waits_for_event _ _ _ _ _ (scripted endless)
            (demo_sys (Some full_provider)) _ _ (make_chan 4));
    try reflexivity.
  vm_compute. discriminate.
Defined.
